(** * Student Restaurant Finder: the data-refresh pipeline

    A shallow embedding of the client application (the documented main
    script, [src/unnamed/part_000]; [src/unnamed/part_001] is an earlier
    revision with the same [apiFetch], [loadAuth], [haversine], filters and
    weekly-menu chunking).

    Conventions of the embedding:
    - JavaScript numbers that carry measurements (coordinates, distances)
      are mathematical reals; rounding, NaN and the infinities of IEEE-754
      doubles are outside the model.  Lengths, indices and HTTP status
      codes are natural numbers.
    - Restaurants, users, courses and weeks are records with the fields
      the script reads; a field that may be missing is an [option].
    - Module-level variables, the DOM elements of [el], [localStorage],
      [alert] and [console] make up one explicit [State]; a function that
      may throw returns a [Result] together with the state it leaves.
    - The DOM is kept as the structure the templates produce (a card per
      restaurant, a section per day), not as markup text. *)

From Stdlib Require Import List String Ascii Bool Arith ZArith Lia.
From Stdlib Require Import Sorted Permutation.
From Stdlib Require Import Reals Lra.
From Stdlib Require Import DecimalString.
Import ListNotations.

Local Open Scope string_scope.
Local Open Scope list_scope.

(** * Part I: the program *)

(** ** Values and built-ins of the runtime *)

(** A string used as a condition: only the empty string is falsy. *)
Definition truthy (s : string) : bool := negb (String.eqb s "").

(** A value that is a string, or [null] / [undefined]. *)
Definition truthy_opt (o : option string) : bool :=
  match o with Some s => truthy s | None => false end.

(** [a || b] on strings. *)
Definition or_else (a : option string) (b : string) : string :=
  match a with
  | Some s => if truthy s then s else b
  | None => b
  end.

(** [s.includes(sub)] *)
Fixpoint includes (s sub : string) : bool :=
  if String.prefix sub s then true
  else match s with
       | EmptyString => false
       | String _ s' => includes s' sub
       end.

(** The decimal text of a number inside a template literal. *)
Definition decimal (n : nat) : string :=
  NilZero.string_of_uint (Nat.to_uint n).

(** [arr.slice(start, end)] for indices that are natural numbers. *)
Definition slice {A : Type} (l : list A) (start stop : nat) : list A :=
  firstn (stop - start) (skipn start l).

(** [Math.ceil(n / 5)] for a length [n]. *)
Definition ceil5 (n : nat) : nat := (n + 4) / 5.

(** [Array.prototype.sort(comparefn)].  ECMAScript asks for a stable sort
    and leaves the algorithm to the engine; here it is the stable
    insertion sort: an element steps behind its right neighbour only when
    [comparefn] returns a positive number for the pair.  [positive a b]
    is [comparefn(a, b) > 0]. *)
Section ArraySort.
Variable A : Type.
Variable positive : A -> A -> bool.

Fixpoint sort_insert (x : A) (l : list A) : list A :=
  match l with
  | [] => [x]
  | y :: l' => if positive x y then y :: sort_insert x l' else x :: y :: l'
  end.

Definition array_sort (l : list A) : list A := fold_right sort_insert [] l.

End ArraySort.

Arguments sort_insert {A} positive x l.
Arguments array_sort {A} positive l.

(** [[...new Set(l)]]: first occurrences, in order. *)
Fixpoint unique (l : list string) : list string :=
  match l with
  | [] => []
  | x :: l' => x :: filter (fun y => negb (String.eqb y x)) (unique l')
  end.

(** The default [sort()] of a string array: by code units. *)
Definition sort_strings (l : list string) : list string :=
  array_sort (fun a b => match String.compare a b with Gt => true | _ => false end) l.

(** ** Geocoding helper *)

Module Geo.

Local Open Scope R_scope.

(** [Math.atan2(y, x)] on reals. *)
Definition atan2 (y x : R) : R :=
  if Rlt_dec 0 x then atan (y / x)
  else if Rlt_dec x 0 then
    (if Rle_dec 0 y then atan (y / x) + PI else atan (y / x) - PI)
  else if Rlt_dec 0 y then PI / 2
  else if Rlt_dec y 0 then - (PI / 2)
  else 0.

(** [const toRad = x => x * Math.PI / 180] *)
Definition toRad (x : R) : R := x * PI / 180.

(** [haversine(lat1, lon1, lat2, lon2)], Earth radius 6371 km. *)
Definition haversine (lat1 lon1 lat2 lon2 : R) : R :=
  let R_earth := 6371 in
  let dLat := toRad (lat2 - lat1) in
  let dLon := toRad (lon2 - lon1) in
  let a := sin (dLat / 2) ^ 2 +
           cos (toRad lat1) * cos (toRad lat2) * sin (dLon / 2) ^ 2 in
  R_earth * 2 * atan2 (sqrt a) (sqrt (1 - a)).

End Geo.

(** ** Data model *)

(** [{lat, lng}]: the position of the user. *)
Record Loc := mkLoc { lat : R; lng : R }.

Module Restaurant.
(** [coordinates] is [location?.coordinates], the pair [[lng, lat]]. *)
Record t := mk {
  _id : string;
  name : string;
  address : string;
  city : string;
  company : string;
  coordinates : option (R * R)
}.
End Restaurant.

Module User.
Record t := mk {
  username : string;
  email : option string;
  favouriteRestaurant : option string;
  avatar : option string
}.
End User.

Module Course.
Record t := mk {
  name : string;
  diets : option string;
  price : option string
}.
End Course.

Module Day.
Record t := mk {
  date : option string;
  courses : option (list Course.t)
}.
End Day.

Module Week.
Record t := mk { days : list Day.t }.
End Week.

(** [currentUser?.favouriteRestaurant] when it is truthy. *)
Definition favouriteOf (u : option User.t) : option string :=
  match u with
  | Some u =>
      match User.favouriteRestaurant u with
      | Some f => if truthy f then Some f else None
      | None => None
      end
  | None => None
  end.

(** [haversine(loc.lat, loc.lng, lat, lng)] for [[lng, lat] = coordinates]. *)
Definition distanceFrom (loc : Loc) (c : R * R) : R :=
  let '(lng_r, lat_r) := c in Geo.haversine (lat loc) (lng loc) lat_r lng_r.

(** ** Errors and results *)

Module JsError.
Record t := mk { name : string; message : string }.
End JsError.

(** [new Error(msg)] *)
Definition Error (msg : string) : JsError.t := JsError.mk "Error" msg.

Inductive Result (A : Type) : Type :=
| Returns (a : A)
| Throws (e : JsError.t).

Arguments Returns {A} a.
Arguments Throws {A} e.

(** ** The network as [fetch] sees it *)

Inductive RequestBody :=
| TextBody (s : string)
| FormData (fields : list (string * string)).

Module Options.
Record t := mk {
  method : option string;
  headers : list (string * string);
  body : option RequestBody
}.
(** [options = {}] *)
Definition empty : t := mk None [] None.
End Options.

Module Request.
Record t := mk { url : string; options : Options.t }.
End Request.

Module Body.
(** A parsed JSON document as the script looks at it: its [message]
    property (absent on arrays and on the documents of successful
    answers) and the content the caller goes on to use.  The document is
    an object or an array of the shape the endpoint documents; [null], on
    which reading [message] throws, is outside the model. *)
Record t (D : Type) := mk { message : option string; payload : D }.
Arguments mk {D} message payload.
Arguments message {D} t.
Arguments payload {D} t.
End Body.

Module Response.
(** [json] is the outcome of [res.json()]: the parsed document, or the
    error it rejects with when the body is not JSON. *)
Record t (D : Type) := mk {
  ok : bool;
  status : nat;
  json : JsError.t + Body.t D
}.
Arguments mk {D} ok status json.
Arguments ok {D} t.
Arguments status {D} t.
Arguments json {D} t.
End Response.

(** What the promise returned by [fetch] settles to. *)
Inductive FetchOutcome (D : Type) : Type :=
| FetchRejects (err : JsError.t)
| FetchResponds (res : Response.t D).

Arguments FetchRejects {D} err.
Arguments FetchResponds {D} res.

Definition Network (D : Type) : Type := Request.t -> FetchOutcome D.

(** What [navigator.geolocation] does with a position request. *)
Inductive Geolocation :=
| GeoUnsupported
| GeoFails
| GeoPosition (pos : Loc).

(** The map widget, an external collaborator, as [renderMap] meets it. *)
Inductive MapWidget :=
| MapsNotLoaded
| MapElementMissing
| MapInitFails (e : JsError.t)
| MapReady.

(** ** The page *)

Inductive FavLabel := LabelFav | LabelFavAdd.

Module Card.
(** One [div.restaurant-card]: the restaurant whose fields fill the
    template, the [favorite-highlight] and [nearest] classes, the distance
    line (the number that [toFixed(2)] prints) and the favourite button. *)
Record t := mk {
  restaurant : Restaurant.t;
  favoriteHighlight : bool;
  distance : option R;
  favBtn : option FavLabel;
  nearest : bool
}.
End Card.

(** The content of [el.restaurantList]. *)
Inductive ListView :=
| Loading
| LoadFailed
| NoResults
| Cards (cs : list Card.t).

Inductive Heading :=
| Weekday (name : string)
| DateHeading (date : string).

Inductive DayContent :=
| DayNoMeals
| DayCourses (cs : list Course.t).

Inductive MenuTitle :=
| TitleName (n : string)
| TitleDaily (n : string)
| TitleWeekly (n : string).

Inductive MenuContent :=
| NoMeals
| CourseList (cs : list Course.t)
| DaySections (ds : list (Heading * DayContent)).

Module Overlay.
Record t := mk { title : MenuTitle; content : MenuContent; shown : bool }.
End Overlay.

Module Button.
Record t := mk { hidden : bool; textContent : string }.
End Button.

Module Select.
(** A [select] whose markup declares a first option; [value] is the value
    of the selected option. *)
Record t := mk {
  first : string * string;
  others : list (string * string);
  value : string
}.
(** [sel.value = v]: the option with that value, or none. *)
Definition assign (v : string) (s : t) : t :=
  mk (first s) (others s)
     (if existsb (fun o => String.eqb (snd o) v) (first s :: others s)
      then v else "").
(** Drop every option but the first, retitle it, add [new Option(c, c)]
    for each entry; the selection falls back to the first option. *)
Definition repopulate (text : string) (entries : list (string * string)) (s : t) : t :=
  mk (text, snd (first s)) entries (snd (first s)).
End Select.

Module El.
Record t := mk {
  langSelect : option string;
  loginBtn : option Button.t;
  registerBtn : option Button.t;
  profileBtn : option Button.t;
  logoutBtn : option Button.t;
  cityFilter : option Select.t;
  providerFilter : option Select.t;
  searchInput : option string;
  restaurantList : option ListView;
  menuDisplay : option Overlay.t;
  username : option string;
  email : option string;
  favoriteRestaurant : option Select.t;
  profilePic : option string
}.
End El.

Inductive LogEntry :=
| LogError (args : list string)
| LogInfo (args : list string).

(** ** State *)

Record State := mkState {
  restaurants : list Restaurant.t;
  currentUser : option User.t;
  token : option string;
  userLocation : option Loc;
  selectedLang : string;
  localStorage : list (string * string);
  el : El.t;
  alerts : list string;
  console : list LogEntry
}.

Definition with_restaurants (v : list Restaurant.t) (s : State) : State :=
  mkState v (currentUser s) (token s) (userLocation s) (selectedLang s)
          (localStorage s) (el s) (alerts s) (console s).

Definition with_currentUser (v : option User.t) (s : State) : State :=
  mkState (restaurants s) v (token s) (userLocation s) (selectedLang s)
          (localStorage s) (el s) (alerts s) (console s).

Definition with_token (v : option string) (s : State) : State :=
  mkState (restaurants s) (currentUser s) v (userLocation s) (selectedLang s)
          (localStorage s) (el s) (alerts s) (console s).

Definition with_userLocation (v : option Loc) (s : State) : State :=
  mkState (restaurants s) (currentUser s) (token s) v (selectedLang s)
          (localStorage s) (el s) (alerts s) (console s).

Definition with_el (v : El.t) (s : State) : State :=
  mkState (restaurants s) (currentUser s) (token s) (userLocation s)
          (selectedLang s) (localStorage s) v (alerts s) (console s).

Definition with_alert (msg : string) (s : State) : State :=
  mkState (restaurants s) (currentUser s) (token s) (userLocation s)
          (selectedLang s) (localStorage s) (el s) (alerts s ++ [msg]) (console s).

Definition with_log (e : LogEntry) (s : State) : State :=
  mkState (restaurants s) (currentUser s) (token s) (userLocation s)
          (selectedLang s) (localStorage s) (el s) (alerts s) (console s ++ [e]).

(** [localStorage.getItem(key)] *)
Fixpoint getItem (key : string) (store : list (string * string)) : option string :=
  match store with
  | [] => None
  | (k, v) :: rest => if String.eqb k key then Some v else getItem key rest
  end.

(** [obj[key] = v] on an object used as a map: the key keeps its place. *)
Fixpoint obj_set (key v : string) (o : list (string * string)) : list (string * string) :=
  match o with
  | [] => [(key, v)]
  | (k, w) :: rest =>
      if String.eqb k key then (k, v) :: rest else (k, w) :: obj_set key v rest
  end.

(** ** Computations over the state that may throw *)

Definition M (A : Type) : Type := State -> Result A * State.

Definition ret {A} (a : A) : M A := fun s => (Returns a, s).

Definition bind {A B} (m : M A) (k : A -> M B) : M B :=
  fun s =>
    match m s with
    | (Returns a, s') => k a s'
    | (Throws e, s') => (Throws e, s')
    end.

Definition throw {A} (e : JsError.t) : M A := fun s => (Throws e, s).

(** [try { body } catch (err) { handler }] *)
Definition try_catch {A} (body : M A) (handler : JsError.t -> M A) : M A :=
  fun s =>
    match body s with
    | (Returns a, s') => (Returns a, s')
    | (Throws e, s') => handler e s'
    end.

Definition get : M State := fun s => (Returns s, s).

Definition modify (f : State -> State) : M unit := fun s => (Returns tt, f s).

Notation "x <- c1 ;; c2" := (bind c1 (fun x => c2))
  (at level 61, c1 at next level, right associativity).
Notation "c1 ;; c2" := (bind c1 (fun _ => c2))
  (at level 61, right associativity).

Definition alert (msg : string) : M unit := modify (with_alert msg).
Definition console_error (args : list string) : M unit := modify (with_log (LogError args)).
Definition console_log (args : list string) : M unit := modify (with_log (LogInfo args)).

(** A step that settles a promise already decided by the environment. *)
Definition settle {A} (r : JsError.t + A) : M A :=
  match r with
  | inl e => throw e
  | inr a => ret a
  end.

(** ** The script *)

Definition API_BASE : string := "https://media2.edu.metropolia.fi/restaurant/api/v1".

(** *** Remote data client *)

(** [data.message || `HTTP ${res.status}`] *)
Definition failureMessage {D} (res : Response.t D) (data : Body.t D) : string :=
  or_else (Body.message data) ("HTTP " ++ decimal (Response.status res)).

(** The text [alert] shows for a caught error. *)
Definition notification (err : JsError.t) : string :=
  if includes (JsError.message err) "Failed to fetch"
  then "Ei yhteyttä palvelimeen"
  else JsError.message err.

Definition isFormData (b : option RequestBody) : bool :=
  match b with Some (FormData _) => true | _ => false end.

(** The headers [apiFetch] sends. *)
Definition requestHeaders (st : State) (options : Options.t) : list (string * string) :=
  let authToken :=
    if truthy_opt (token st) then token st else getItem "token" (localStorage st) in
  let headers := Options.headers options in
  let headers :=
    if isFormData (Options.body options) then headers
    else obj_set "Content-Type" "application/json" headers in
  match authToken with
  | Some tk => if truthy tk then obj_set "Authorization" ("Bearer " ++ tk) headers else headers
  | None => headers
  end.

(** The request handed to [fetch]: [fetch(url, { ...options, headers })]. *)
Definition requestOf (st : State) (url : string) (options : Options.t) : Request.t :=
  Request.mk url
    (Options.mk (Options.method options) (requestHeaders st options) (Options.body options)).

Definition apiFetch {D} (net : Network D) (url : string) (options : Options.t)
  : M (Body.t D) :=
  try_catch
    (st <- get ;;
     res <- match net (requestOf st url options) with
            | FetchRejects err => throw err
            | FetchResponds res => ret res
            end ;;
     data <- settle (Response.json res) ;;
     if negb (Response.ok res) then throw (Error (failureMessage res data))
     else ret data)
    (fun err =>
       console_error ["API Error:"; JsError.message err] ;;
       alert (notification err) ;;
       throw err).

(** *** Geolocation *)

(** [getUserLocation()]: the value the promise resolves to.  The first
    [resolve] wins; a position that arrives is cached in [userLocation]. *)
Definition getUserLocation (geo : Geolocation) : M (option Loc) :=
  st <- get ;;
  match geo with
  | GeoUnsupported => ret None
  | GeoFails => ret (userLocation st)
  | GeoPosition pos =>
      modify (with_userLocation (Some pos)) ;;
      ret (match userLocation st with
           | Some cached => Some cached
           | None => Some pos
           end)
  end.

(** *** Rendering the list *)

(** [currentUser?.favouriteRestaurant === r._id] *)
Definition isFavourite (u : option User.t) (r : Restaurant.t) : bool :=
  match u with
  | Some u =>
      match User.favouriteRestaurant u with
      | Some f => String.eqb f (Restaurant._id r)
      | None => false
      end
  | None => false
  end.

(** [(a, b) => a._id === fav ? -1 : b._id === fav ? 1 : 0] *)
Definition favouriteFirst (fav : string) (a b : Restaurant.t) : Z :=
  if String.eqb (Restaurant._id a) fav then (-1)%Z
  else if String.eqb (Restaurant._id b) fav then 1%Z
  else 0%Z.

(** The comparator of the distance sort. *)
Definition byDistance (loc : Loc) (a b : Restaurant.t) : R :=
  match Restaurant.coordinates a, Restaurant.coordinates b with
  | Some ca, Some cb => (distanceFrom loc ca - distanceFrom loc cb)%R
  | _, _ => 0%R
  end.

(** [x > 0] on the number a comparator returns. *)
Definition positiveR (x : R) : bool := if Rlt_dec 0 x then true else false.
Definition positiveZ (x : Z) : bool := (0 <? x)%Z.

(** [sorted]: favourite first, else nearest first, else as given. *)
Definition sortedList (u : option User.t) (loc : option Loc) (rs : list Restaurant.t)
  : list Restaurant.t :=
  match favouriteOf u with
  | Some fav => array_sort (fun a b => positiveZ (favouriteFirst fav a b)) rs
  | None =>
      match loc with
      | Some loc => array_sort (fun a b => positiveR (byDistance loc a b)) rs
      | None => rs
      end
  end.

Definition card (u : option User.t) (loc : option Loc) (r : Restaurant.t) : Card.t :=
  Card.mk r
    (isFavourite u r)
    (match loc, Restaurant.coordinates r with
     | Some loc, Some c => Some (distanceFrom loc c)
     | _, _ => None
     end)
    (match u with
     | Some _ => Some (if isFavourite u r then LabelFav else LabelFavAdd)
     | None => None
     end)
    false.

Definition markNearest (c : Card.t) : Card.t :=
  Card.mk (Card.restaurant c) (Card.favoriteHighlight c) (Card.distance c)
          (Card.favBtn c) true.

(** [d < minDist], where [minDist] starts as [Infinity]. *)
Definition closer (d : R) (minDist : option R) : bool :=
  match minDist with
  | None => true
  | Some m => if Rlt_dec d m then true else false
  end.

(** The loop that looks for the nearest restaurant other than the favourite. *)
Fixpoint findNearest (loc : Loc) (fav : string) (rs : list Restaurant.t)
    (nearest : option Restaurant.t) (minDist : option R) : option Restaurant.t :=
  match rs with
  | [] => nearest
  | r :: rest =>
      match Restaurant.coordinates r with
      | Some c =>
          if negb (String.eqb (Restaurant._id r) fav) && closer (distanceFrom loc c) minDist
          then findNearest loc fav rest (Some r) (Some (distanceFrom loc c))
          else findNearest loc fav rest nearest minDist
      | None => findNearest loc fav rest nearest minDist
      end
  end.

(** The [nearest] class: on the first card when the list is sorted by
    distance, else on the cards titled like the nearest non-favourite. *)
Definition highlightNearest (u : option User.t) (loc : option Loc)
    (sorted : list Restaurant.t) (cards : list Card.t) : list Card.t :=
  match loc with
  | None => cards
  | Some loc =>
      match favouriteOf u with
      | None =>
          match cards, sorted with
          | c :: cs, r :: _ =>
              match Restaurant.coordinates r with
              | Some _ => markNearest c :: cs
              | None => cards
              end
          | _, _ => cards
          end
      | Some fav =>
          match findNearest loc fav sorted None None with
          | Some n =>
              map (fun c =>
                     if String.eqb (Restaurant.name (Card.restaurant c)) (Restaurant.name n)
                     then markNearest c else c) cards
          | None => cards
          end
      end
  end.

Definition set_restaurantList (v : ListView) (e : El.t) : El.t :=
  El.mk (El.langSelect e) (El.loginBtn e) (El.registerBtn e) (El.profileBtn e)
        (El.logoutBtn e) (El.cityFilter e) (El.providerFilter e) (El.searchInput e)
        (match El.restaurantList e with Some _ => Some v | None => None end)
        (El.menuDisplay e) (El.username e) (El.email e) (El.favoriteRestaurant e)
        (El.profilePic e).

(** [renderRestaurants(list)], with [rs] for the argument [list]. *)
Definition renderRestaurants (geo : Geolocation) (rs : list Restaurant.t) : M unit :=
  st <- get ;;
  match El.restaurantList (el st) with
  | None => ret tt
  | Some _ =>
      loc <- getUserLocation geo ;;
      st <- get ;;
      let sorted := sortedList (currentUser st) loc rs in
      let cards :=
        highlightNearest (currentUser st) loc sorted
          (map (card (currentUser st) loc) sorted) in
      modify (with_el
                (set_restaurantList
                   (match sorted with [] => NoResults | _ => Cards cards end)
                   (el st)))
  end.

(** *** The map *)

(** Of [renderMap()] the model keeps what reaches the state: the console
    messages of the paths that give up, and the position request. *)
Definition renderMap (widget : MapWidget) (geo : Geolocation) : M unit :=
  match widget with
  | MapsNotLoaded => console_error ["Google Maps API not loaded"]
  | MapElementMissing => console_error ["Map element not found"]
  | MapInitFails e => console_error ["Error initializing map:"; JsError.message e]
  | MapReady => getUserLocation geo ;; ret tt
  end.

(** *** Filters *)

(** [if (el.cityFilter?.value) filtered = filtered.filter(r => r.city === value)] *)
Definition filterByCity (value : option string) (rs : list Restaurant.t) : list Restaurant.t :=
  match value with
  | Some v => if truthy v then filter (fun r => String.eqb (Restaurant.city r) v) rs else rs
  | None => rs
  end.

(** [if (el.providerFilter?.value) filtered = filtered.filter(r => r.company === value)] *)
Definition filterByProvider (value : option string) (rs : list Restaurant.t) : list Restaurant.t :=
  match value with
  | Some v => if truthy v then filter (fun r => String.eqb (Restaurant.company r) v) rs else rs
  | None => rs
  end.

Section StringBuiltins.

(** [String.prototype.trim] and [String.prototype.toLowerCase] of the runtime. *)
Variable trim : string -> string.
Variable toLowerCase : string -> string.

Definition filterBySearch (value : option string) (rs : list Restaurant.t) : list Restaurant.t :=
  match value with
  | Some v =>
      if truthy (trim v)
      then let term := toLowerCase (trim v) in
           filter (fun r => includes (toLowerCase (Restaurant.name r)) term) rs
      else rs
  | None => rs
  end.

(** The list [filterAndRender] hands to the renderer. *)
Definition filtered (st : State) : list Restaurant.t :=
  filterBySearch (El.searchInput (el st))
    (filterByProvider (option_map Select.value (El.providerFilter (el st)))
       (filterByCity (option_map Select.value (El.cityFilter (el st)))
          (restaurants st))).

Definition filterAndRender (widget : MapWidget) (geo : Geolocation) : M unit :=
  st <- get ;;
  renderRestaurants geo (filtered st) ;;
  renderMap widget geo.

End StringBuiltins.

(** *** Directory refresh *)

Definition set_filters (c p f : Select.t) (e : El.t) : El.t :=
  El.mk (El.langSelect e) (El.loginBtn e) (El.registerBtn e) (El.profileBtn e)
        (El.logoutBtn e) (Some c) (Some p) (El.searchInput e)
        (El.restaurantList e) (El.menuDisplay e) (El.username e) (El.email e)
        (Some f) (El.profilePic e).

Definition populateFilters : M unit :=
  st <- get ;;
  match El.cityFilter (el st), El.providerFilter (el st), El.favoriteRestaurant (el st) with
  | Some cityFilter, Some providerFilter, Some favoriteRestaurant =>
      let cities := sort_strings (unique (map Restaurant.city (restaurants st))) in
      let companies := sort_strings (unique (map Restaurant.company (restaurants st))) in
      let en := String.eqb (selectedLang st) "en" in
      modify (with_el
        (set_filters
           (Select.repopulate (if en then "All cities" else "Kaikki kaupungit")
              (map (fun c => (c, c)) cities) cityFilter)
           (Select.repopulate (if en then "All providers" else "Kaikki palveluntarjoajat")
              (map (fun c => (c, c)) companies) providerFilter)
           (Select.repopulate (fst (Select.first favoriteRestaurant))
              (map (fun r => (Restaurant.name r, Restaurant._id r)) (restaurants st))
              favoriteRestaurant)
           (el st)))
  | _, _, _ => ret tt
  end.

(** [fetchRestaurants()] *)
Definition fetchRestaurants (net : Network (list Restaurant.t))
    (widget : MapWidget) (geo : Geolocation) : M unit :=
  modify (fun st => with_el (set_restaurantList Loading (el st)) st) ;;
  try_catch
    (data <- apiFetch net (API_BASE ++ "/restaurants") Options.empty ;;
     modify (with_restaurants (Body.payload data)) ;;
     populateFilters ;;
     st <- get ;;
     renderRestaurants geo (restaurants st) ;;
     renderMap widget geo)
    (fun err =>
       modify (fun st => with_el (set_restaurantList LoadFailed (el st)) st)).

(** *** Session store *)

Definition toggleHidden (force : bool) (b : option Button.t) : option Button.t :=
  option_map (fun b => Button.mk force (Button.textContent b)) b.

Definition set_authButtons (login register profile logout : option Button.t) (e : El.t) : El.t :=
  El.mk (El.langSelect e) login register profile logout
        (El.cityFilter e) (El.providerFilter e) (El.searchInput e)
        (El.restaurantList e) (El.menuDisplay e) (El.username e) (El.email e)
        (El.favoriteRestaurant e) (El.profilePic e).

Definition updateAuthUI : M unit :=
  st <- get ;;
  let loggedIn :=
    match currentUser st with Some _ => truthy_opt (token st) | None => false end in
  let profile := toggleHidden (negb loggedIn) (El.profileBtn (el st)) in
  modify (with_el
    (set_authButtons
       (toggleHidden loggedIn (El.loginBtn (el st)))
       (toggleHidden loggedIn (El.registerBtn (el st)))
       (match currentUser st with
        | Some u =>
            if loggedIn
            then option_map (fun b => Button.mk (Button.hidden b) (User.username u)) profile
            else profile
        | None => profile
        end)
       (toggleHidden (negb loggedIn) (El.logoutBtn (el st)))
       (el st))).

Definition set_profile (username email : option string)
    (favoriteRestaurant : option Select.t) (profilePic : option string) (e : El.t) : El.t :=
  El.mk (El.langSelect e) (El.loginBtn e) (El.registerBtn e) (El.profileBtn e)
        (El.logoutBtn e) (El.cityFilter e) (El.providerFilter e) (El.searchInput e)
        (El.restaurantList e) (El.menuDisplay e) username email
        favoriteRestaurant profilePic.

(** [loadProfileData()]: the form fields, and of the picture what happens
    at once (the image itself is fetched later). *)
Definition loadProfileData : M unit :=
  st <- get ;;
  match currentUser st with
  | None => ret tt
  | Some u =>
      modify (with_el
        (set_profile
           (option_map (fun _ => User.username u) (El.username (el st)))
           (option_map (fun _ => or_else (User.email u) "") (El.email (el st)))
           (option_map (Select.assign (or_else (User.favouriteRestaurant u) ""))
              (El.favoriteRestaurant (el st)))
           (El.profilePic (el st))
           (el st))) ;;
      match El.profilePic (el st) with
      | None => ret tt
      | Some _ =>
          if truthy_opt (User.avatar u)
          then console_log ["Loading profile image:";
                            (API_BASE ++ "/uploads/" ++ or_else (User.avatar u) "")%string]
          else
            console_log ["No avatar set, using placeholder"] ;;
            modify (fun st => with_el
              (set_profile (El.username (el st)) (El.email (el st))
                 (El.favoriteRestaurant (el st))
                 (Some "https://via.placeholder.com/120x120/007bff/ffffff?text=No+Avatar")
                 (el st)) st)
      end
  end.

Section Json.

(** [JSON.parse] on the stored user: the error it throws, or the value,
    [null] or a user object. *)
Variable JSON_parse : string -> JsError.t + option User.t.

(** [loadAuth()] *)
Definition loadAuth : M unit :=
  st <- get ;;
  modify (with_token (getItem "token" (localStorage st))) ;;
  match getItem "currentUser" (localStorage st) with
  | Some stored =>
      if truthy_opt (getItem "token" (localStorage st)) && truthy stored
      then
        try_catch
          (u <- settle (JSON_parse stored) ;;
           modify (with_currentUser u) ;;
           updateAuthUI ;;
           loadProfileData)
          (fun e => console_error ["Invalid stored user data"; JsError.message e])
      else ret tt
  | None => ret tt
  end.

End Json.

(** *** Menu viewer *)

Definition weekdays (selectedLang : string) : list string :=
  if String.eqb selectedLang "en"
  then ["Monday"; "Tuesday"; "Wednesday"; "Thursday"; "Friday"; "Saturday"; "Sunday"]
  else ["Maanantai"; "Tiistai"; "Keskiviikko"; "Torstai"; "Perjantai"; "Lauantai"; "Sunnuntai"].

(** [slice.length ? <ul>...</ul> : <p>noMenu</p>] *)
Definition dayContent (cs : list Course.t) : DayContent :=
  match cs with
  | [] => DayNoMeals
  | _ => DayCourses cs
  end.

(** The body of [for (let i = 0; i < 5; i++)]: the slice of day [i]. *)
Definition bucket (all : list Course.t) (i : nat) : list Course.t :=
  let chunk := ceil5 (List.length all) in
  slice all (i * chunk) ((i + 1) * chunk).

(** The single-day shape: five weekday sections cut from one course list. *)
Definition chunkedSections (selectedLang : string) (all : list Course.t)
  : list (Heading * DayContent) :=
  map (fun i => (Weekday (nth i (weekdays selectedLang) ""), dayContent (bucket all i)))
      (seq 0 5).

(** [week.days.forEach((d, i) => ...)], from index [i]. *)
Fixpoint dailySections (selectedLang : string) (i : nat) (ds : list Day.t)
  : list (Heading * DayContent) :=
  match ds with
  | [] => []
  | d :: rest =>
      (if truthy_opt (Day.date d)
       then DateHeading (or_else (Day.date d) "")
       else Weekday (nth (i mod 7) (weekdays selectedLang) ""),
       match Day.courses d with
       | Some cs => dayContent cs
       | None => DayNoMeals
       end)
      :: dailySections selectedLang (S i) rest
  end.

(** The sections [showWeeklyMenu] builds from the answer. *)
Definition weeklySections (selectedLang : string) (week : Week.t)
  : list (Heading * DayContent) :=
  match Week.days week with
  | [d] =>
      match Day.courses d with
      | Some all => chunkedSections selectedLang all
      | None => dailySections selectedLang 0 [d]
      end
  | ds => dailySections selectedLang 0 ds
  end.

Definition set_menuDisplay (v : Overlay.t) (e : El.t) : El.t :=
  El.mk (El.langSelect e) (El.loginBtn e) (El.registerBtn e) (El.profileBtn e)
        (El.logoutBtn e) (El.cityFilter e) (El.providerFilter e) (El.searchInput e)
        (El.restaurantList e)
        (match El.menuDisplay e with Some _ => Some v | None => None end)
        (El.username e) (El.email e) (El.favoriteRestaurant e) (El.profilePic e).

(** [displayMenu(title, content)] *)
Definition displayMenu (title : MenuTitle) (content : MenuContent) : M unit :=
  modify (fun st => with_el (set_menuDisplay (Overlay.mk title content true) (el st)) st).

(** [`${API_BASE}/restaurants/weekly/${id}/${lang}`], with
    [lang = el.langSelect?.value || selectedLang]. *)
Definition weeklyUrl (st : State) (id : string) : string :=
  API_BASE ++ "/restaurants/weekly/" ++ id ++ "/"
  ++ or_else (El.langSelect (el st)) (selectedLang st).

(** [window.showWeeklyMenu(id)] *)
Definition showWeeklyMenu (net : Network Week.t) (id : string) : M unit :=
  st <- get ;;
  match find (fun x => String.eqb (Restaurant._id x) id) (restaurants st) with
  | None => ret tt
  | Some r =>
      try_catch
        (week <- apiFetch net (weeklyUrl st id) Options.empty ;;
         st <- get ;;
         let sections := weeklySections (selectedLang st) (Body.payload week) in
         displayMenu (TitleWeekly (Restaurant.name r))
           (match sections with
            | [] => NoMeals
            | _ => DaySections sections
            end))
        (fun _ => displayMenu (TitleName (Restaurant.name r)) NoMeals)
  end.

(** The sections the overlay shows, when it shows day sections. *)
Definition shownSections (st : State) : option (list (Heading * DayContent)) :=
  match El.menuDisplay (el st) with
  | Some o =>
      match Overlay.content o with
      | DaySections ds => Some ds
      | _ => None
      end
  | None => None
  end.

(** The restaurants of the cards in the list view, in order. *)
Definition renderedOrder (st : State) : option (list Restaurant.t) :=
  match El.restaurantList (el st) with
  | Some (Cards cs) => Some (map Card.restaurant cs)
  | Some NoResults => Some []
  | _ => None
  end.

(** ** Notions the properties are stated with *)

(** The courses a day section lists. *)
Definition coursesOf (c : DayContent) : list Course.t :=
  match c with
  | DayNoMeals => []
  | DayCourses cs => cs
  end.

(** The first [count] consecutive chunks of size [size] of a list. *)
Fixpoint consecutiveChunks {A : Type} (size : nat) (l : list A) (count : nat) : list (list A) :=
  match count with
  | 0 => []
  | S count' => firstn size l :: consecutiveChunks size (skipn size l) count'
  end.


(** The restaurant carries the id [fav]. *)
Definition hasId (fav : string) (r : Restaurant.t) : bool :=
  String.eqb (Restaurant._id r) fav.

(** The value [await getUserLocation()] gives the renderer. *)
Definition locationSeen (geo : Geolocation) (st : State) : option Loc :=
  match fst (getUserLocation geo st) with
  | Returns loc => loc
  | Throws _ => None
  end.

(** Filters applied provider first, then city. *)
Definition providerThenCity (city provider : option string) (rs : list Restaurant.t)
  : list Restaurant.t :=
  filterByCity city (filterByProvider provider rs).

(** Filters applied in the order of [filterAndRender]: city, then provider. *)
Definition cityThenProvider (city provider : option string) (rs : list Restaurant.t)
  : list Restaurant.t :=
  filterByProvider provider (filterByCity city rs).

(** ** Sample inputs *)

(** A page with a list container and nothing else. *)
Definition page : El.t :=
  El.mk None None None None None None None None (Some Loading) None None None None None.

(** The state the script starts in. *)
Definition startup : State := mkState [] None None None "fi" [] page [] [].


(** A restaurant a quarter of the equator east of [origin], one without
    coordinates, one at [origin]. *)
Definition far : Restaurant.t := Restaurant.mk "r1" "A" "" "Helsinki" "X" (Some (90, 0)%R).
Definition unlocated : Restaurant.t := Restaurant.mk "r2" "B" "" "Espoo" "Y" None.
Definition near : Restaurant.t := Restaurant.mk "r3" "C" "" "Helsinki" "Y" (Some (0, 0)%R).

(** A user whose favourite is [unlocated]. *)
Definition student : User.t := User.mk "u" None (Some "r2") None.

(** A network that gives every request the same answer. *)
Definition answering {D} (res : Response.t D) : Network D := fun _ => FetchResponds res.

(** A network on which every request fails in transit. *)
Definition unreachable {D} (err : JsError.t) : Network D := fun _ => FetchRejects err.

(** [{ok: false, status: 404, body: {message: "Not found"}}] *)
Definition notFound : Response.t unit :=
  Response.mk false 404 (inr (Body.mk (Some "Not found") tt)).

(** A server error whose message speaks of a failed fetch. *)
Definition upstreamFailed : Response.t unit :=
  Response.mk false 500 (inr (Body.mk (Some "Failed to fetch menu") tt)).

(** The rejections of [fetch] as Chromium and as Firefox word them. *)
Definition failedToFetch : JsError.t := JsError.mk "TypeError" "Failed to fetch".
Definition networkError : JsError.t :=
  JsError.mk "TypeError" "NetworkError when attempting to fetch resource.".

(** The rejection of the test "apiFetch - timeout-like error". *)
Definition timedOut : JsError.t := JsError.mk "TimeoutError" "The operation timed out".

(** A parser that rejects the text ["{broken"], as [JSON.parse] does. *)
Definition rejectingParser (text : string) : JsError.t + option User.t :=
  if String.prefix "{broken" text
  then inl (JsError.mk "SyntaxError" "Unexpected token b in JSON at position 1")
  else inr None.

(** A start with a token and a damaged user in the store. *)
Definition returning : State :=
  mkState [] None None None "fi" [("token", "t1"); ("currentUser", "{broken")] page [] [].

(** A page that also has the menu overlay, and a directory of three. *)
Definition pageWithOverlay : El.t :=
  El.mk None None None None None None None None (Some Loading)
        (Some (Overlay.mk (TitleName "") NoMeals false)) None None None None.

Definition browsing : State :=
  mkState [far; unlocated; near] None None None "fi" [] pageWithOverlay [] [].

(** A weekly answer of one day entry with ten courses. *)
Definition tenCourses : list Course.t :=
  map (fun n => Course.mk n None None)
      ["c0"; "c1"; "c2"; "c3"; "c4"; "c5"; "c6"; "c7"; "c8"; "c9"].

Definition oneDayWeek : Response.t Week.t :=
  Response.mk true 200 (inr (Body.mk None (Week.mk [Day.mk None (Some tenCourses)]))).

(** ** More of the script *)

Definition with_localStorage (v : list (string * string)) (s : State) : State :=
  mkState (restaurants s) (currentUser s) (token s) (userLocation s)
          (selectedLang s) v (el s) (alerts s) (console s).

(** [localStorage.setItem(key, value)] *)
Definition setItem (key value : string) : M unit :=
  modify (fun st => with_localStorage (obj_set key value (localStorage st)) st).

(** [localStorage.removeItem(key)] *)
Definition removeItem (key : string) : M unit :=
  modify (fun st =>
    with_localStorage
      (filter (fun kv => negb (String.eqb (fst kv) key)) (localStorage st)) st).

(** *** Translation table *)

Module I18n.

Definition fi : list (string * string) :=
  [("login", "Kirjaudu sisään");
   ("register", "Rekisteröidy");
   ("profile", "Profiili");
   ("logout", "Kirjaudu ulos");
   ("theme", "Vaihda teemaa");
   ("mainTitle", "Opiskelijaravintolat Suomessa");
   ("filterTitle", "Suodata ravintoloita");
   ("cityAll", "Kaikki kaupungit");
   ("providerAll", "Kaikki palveluntarjoajat");
   ("searchPlaceholder", "Hae ravintolaa nimellä...");
   ("menuDay", "Päivän menu");
   ("menuWeek", "Viikon menu");
   ("nearest", "Etäisyys sinusta:");
   ("noResults", "Ei tuloksia.");
   ("noMenu", "Ei ruokia tänään");
   ("favSet", "Suosikkiravintola asetettu!");
   ("favFail", "Suosikin asettaminen epäonnistui");
   ("fav", "Sinun suosikkisi");
   ("favAdd", "Lisää suosikiksi");
   ("profileHeader", "Omat tiedot");
   ("favRestOpt", "Valitse suosikkiravintola");
   ("updateProfile", "Päivitä tiedot");
   ("loginHeader", "Kirjaudu sisään");
   ("loginUser", "Käyttäjätunnus");
   ("loginPass", "Salasana");
   ("doLogin", "Kirjaudu");
   ("registerHeader", "Rekisteröidy");
   ("regUser", "Käyttäjätunnus");
   ("regEmail", "Sähköposti");
   ("regPass", "Salasana");
   ("doRegister", "Rekisteröidy");
   ("yourLocation", "Sinun sijaintisi");
   ("distance", "Etäisyys:");
   ("loadingRestaurants", "Ladataan ravintoloita...");
   ("loadingMap", "Ladataan karttaa...");
   ("updatingMap", "Päivitetään karttaa...")].

Definition en : list (string * string) :=
  [("login", "Login");
   ("register", "Register");
   ("profile", "Profile");
   ("logout", "Logout");
   ("theme", "Toggle theme");
   ("mainTitle", "Student Restaurants in Finland");
   ("filterTitle", "Filter restaurants");
   ("cityAll", "All cities");
   ("providerAll", "All providers");
   ("searchPlaceholder", "Search restaurant by name...");
   ("menuDay", "Daily menu");
   ("menuWeek", "Weekly menu");
   ("nearest", "Distance from you:");
   ("noResults", "No results.");
   ("noMenu", "No meals today");
   ("favSet", "Favorite restaurant set!");
   ("favFail", "Failed to set favorite");
   ("fav", "Your favorite");
   ("favAdd", "Add as favorite");
   ("profileHeader", "My Details");
   ("favRestOpt", "Select favorite restaurant");
   ("updateProfile", "Update details");
   ("loginHeader", "Login");
   ("loginUser", "Username");
   ("loginPass", "Password");
   ("doLogin", "Login");
   ("registerHeader", "Register");
   ("regUser", "Username");
   ("regEmail", "Email");
   ("regPass", "Password");
   ("doRegister", "Register");
   ("yourLocation", "Your location");
   ("distance", "Distance:");
   ("loadingRestaurants", "Loading restaurants...");
   ("loadingMap", "Loading map...");
   ("updatingMap", "Updating map...")].

(** [translations[lang]]: the table of a language the object has. *)
Definition translations (lang : string) : option (list (string * string)) :=
  if String.eqb lang "fi" then Some fi
  else if String.eqb lang "en" then Some en
  else None.

(** [t(key)] under [selectedLang]: the text of the selected language,
    else the Finnish text, else the key itself; reading a key of a
    language the object does not have throws.  Keys are the names the
    script passes, languages the values of the language select. *)
Definition t (selectedLang key : string) : Result string :=
  match translations selectedLang with
  | Some table => Returns (or_else (getItem key table) (or_else (getItem key fi) key))
  | None =>
      Throws (JsError.mk "TypeError"
                ("Cannot read properties of undefined (reading '" ++ key ++ "')"))
  end.

End I18n.

(** [t(key)] as a step of the script. *)
Definition translate (key : string) : M string :=
  st <- get ;;
  match I18n.t (selectedLang st) key with
  | Returns text => ret text
  | Throws e => throw e
  end.

(** *** Username check *)

(** The class [[a-zA-Z0-9_-]]. *)
Definition usernameChar (c : ascii) : bool :=
  let n := nat_of_ascii c in
  (((97 <=? n) && (n <=? 122)) || ((65 <=? n) && (n <=? 90)) ||
   ((48 <=? n) && (n <=? 57)) || (n =? 95) || (n =? 45))%nat.

(** [/^[a-zA-Z0-9_-]{3,20}$/.test(username)].  Every character of the
    class is one byte, so a text that passes has as many bytes as
    characters. *)
Definition isValidUsername (username : string) : bool :=
  (3 <=? String.length username)%nat && (String.length username <=? 20)%nat &&
  forallb usernameChar (list_ascii_of_string username).

(** *** Session store, the writing side *)

Section JsonOut.

(** [JSON.stringify] on a user object. *)
Variable JSON_stringify : User.t -> string.

(** [saveAuth(user, tkn)] *)
Definition saveAuth (user : User.t) (tkn : string) : M unit :=
  modify (with_token (Some tkn)) ;;
  modify (with_currentUser (Some user)) ;;
  setItem "token" tkn ;;
  setItem "currentUser" (JSON_stringify user) ;;
  updateAuthUI ;;
  loadProfileData.

End JsonOut.

(** [logout()].  [el.profileSection], which the page record does not
    carry, comes in as its [hidden] class (when the element exists) and
    is handed back. *)
Definition logout (profileSection : option bool) : M (option bool) :=
  modify (with_token None) ;;
  modify (with_currentUser None) ;;
  removeItem "token" ;;
  removeItem "currentUser" ;;
  updateAuthUI ;;
  ret (option_map (fun _ => true) profileSection).

(** *** Daily menu *)

Module Daily.
Record t := mk { courses : option (list Course.t) }.
End Daily.

(** [`${API_BASE}/restaurants/daily/${id}/${lang}`] *)
Definition dailyUrl (st : State) (id : string) : string :=
  API_BASE ++ "/restaurants/daily/" ++ id ++ "/"
  ++ or_else (El.langSelect (el st)) (selectedLang st).

(** What [displayMenu] makes of an array of courses. *)
Definition courseMenu (cs : list Course.t) : MenuContent :=
  match cs with
  | [] => NoMeals
  | _ => CourseList cs
  end.

(** [window.showDailyMenu(id)].  The title and the placeholder are built
    with [t] before [displayMenu] is called, so a lookup that throws is
    caught in the first place and escapes in the second. *)
Definition showDailyMenu (net : Network Daily.t) (id : string) : M unit :=
  st <- get ;;
  match find (fun x => String.eqb (Restaurant._id x) id) (restaurants st) with
  | None => ret tt
  | Some r =>
      try_catch
        (data <- apiFetch net (dailyUrl st id) Options.empty ;;
         let courses :=
           match Daily.courses (Body.payload data) with
           | Some cs => cs
           | None => []
           end in
         translate "menuDay" ;;
         displayMenu (TitleDaily (Restaurant.name r)) (courseMenu courses))
        (fun _ =>
           translate "noMenu" ;;
           displayMenu (TitleName (Restaurant.name r)) NoMeals)
  end.

(** *** Setting the favourite *)

(** [currentUser.favouriteRestaurant = id] *)
Definition withFavourite (id : string) (u : User.t) : User.t :=
  User.mk (User.username u) (User.email u) (Some id) (User.avatar u).

Section SetFavourite.

Variable trim : string -> string.
Variable toLowerCase : string -> string.
Variable JSON_stringify : User.t -> string.
(** [JSON.stringify({ favouriteRestaurant: id })] *)
Variable JSON_stringify_favourite : string -> string.

(** [window.setFavoriteRestaurant(id)] *)
Definition setFavoriteRestaurant {D} (net : Network D) (widget : MapWidget)
    (geo : Geolocation) (id : string) : M unit :=
  st <- get ;;
  match currentUser st with
  | None => ret tt
  | Some _ =>
      if negb (truthy_opt (token st)) then ret tt
      else
        try_catch
          (apiFetch net (API_BASE ++ "/users")
             (Options.mk (Some "PUT") [] (Some (TextBody (JSON_stringify_favourite id)))) ;;
           st <- get ;;
           match currentUser st with
           | None =>
               throw (JsError.mk "TypeError"
                        "Cannot set properties of null (setting 'favouriteRestaurant')")
           | Some u =>
               modify (with_currentUser (Some (withFavourite id u))) ;;
               setItem "currentUser" (JSON_stringify (withFavourite id u)) ;;
               filterAndRender trim toLowerCase widget geo ;;
               text <- translate "favSet" ;;
               alert text
           end)
          (fun _ => text <- translate "favFail" ;; alert text)
  end.

End SetFavourite.

(** ** Further notions and sample inputs *)

(** A restaurant passes the city control, the provider control, the
    search box: a control that is missing or empty lets everything pass. *)
Definition cityMatches (value : option string) (r : Restaurant.t) : bool :=
  match value with
  | Some v => if truthy v then String.eqb (Restaurant.city r) v else true
  | None => true
  end.

Definition providerMatches (value : option string) (r : Restaurant.t) : bool :=
  match value with
  | Some v => if truthy v then String.eqb (Restaurant.company r) v else true
  | None => true
  end.

Definition searchMatches (trim toLowerCase : string -> string)
    (value : option string) (r : Restaurant.t) : bool :=
  match value with
  | Some v =>
      if truthy (trim v)
      then includes (toLowerCase (Restaurant.name r)) (toLowerCase (trim v))
      else true
  | None => true
  end.

(** All three at once, for the controls of a state. *)
Definition passesFilters (trim toLowerCase : string -> string) (st : State)
    (r : Restaurant.t) : bool :=
  cityMatches (option_map Select.value (El.cityFilter (el st))) r &&
  providerMatches (option_map Select.value (El.providerFilter (el st))) r &&
  searchMatches trim toLowerCase (El.searchInput (el st)) r.

(** A success answer whose body is not JSON. *)
Definition garbled : Response.t unit :=
  Response.mk true 200 (inl (JsError.mk "SyntaxError" "Invalid JSON")).

(** A page with the four session buttons, and a store with a session. *)
Definition pageWithButtons : El.t :=
  El.mk None (Some (Button.mk false "Kirjaudu")) (Some (Button.mk false "Rekisteröidy"))
        (Some (Button.mk true "Profiili")) (Some (Button.mk true "Kirjaudu ulos"))
        None None None (Some Loading) None None None None None.

Definition remembered : State :=
  mkState [] None None None "fi" [("token", "t1"); ("currentUser", "{u}")]
          pageWithButtons [] [].

(** A parser and a printer that agree on [student]. *)
Definition studentParser (text : string) : JsError.t + option User.t :=
  if String.eqb text "{u}" then inr (Some student)
  else inl (JsError.mk "SyntaxError" "Unexpected token").

Definition studentPrinter (u : User.t) : string := "{u}".

(** A daily answer with two courses, and a weekly answer of three days:
    one dated with a course, one undated without courses, one with an
    empty course collection. *)
Definition soup : Course.t := Course.mk "Keitto" (Some "G, L") (Some "2,95").
Definition stew : Course.t := Course.mk "Pata" None None.

Definition todaysMenu : Response.t Daily.t :=
  Response.mk true 200 (inr (Body.mk None (Daily.mk (Some [soup; stew])))).

Definition threeDays : Week.t :=
  Week.mk [Day.mk (Some "2025-04-14") (Some [soup]);
           Day.mk None None;
           Day.mk None (Some [])].

(** A search box holding blanks, empty selects, and a [trim] that
    removes the blanks at both ends. *)
Fixpoint dropBlanks (s : string) : string :=
  match s with
  | String c rest => if Ascii.eqb c " "%char then dropBlanks rest else s
  | EmptyString => EmptyString
  end.

Definition reverseString (s : string) : string :=
  string_of_list_ascii (rev (list_ascii_of_string s)).

Definition trimBlanks (s : string) : string :=
  reverseString (dropBlanks (reverseString (dropBlanks s))).

Definition pageWithControls : El.t :=
  El.mk None None None None None
        (Some (Select.mk ("Kaikki kaupungit", "") [("Helsinki", "Helsinki")] ""))
        (Some (Select.mk ("Kaikki palveluntarjoajat", "") [("X", "X")] ""))
        (Some "   ") (Some Loading) None None None
        (Some (Select.mk ("Valitse suosikkiravintola", "") [] "")) None.

Definition idle : State :=
  mkState [far; unlocated; near] None None None "fi" [] pageWithControls [] [].

(** A signed-in user looking at the directory, and a printer for the
    update that sets the favourite. *)
Definition signedIn : State :=
  mkState [far; unlocated; near] (Some student) (Some "t1") None "fi" [] page [] [].

Definition favouritePrinter (id : string) : string := id.

Definition accepted : Response.t unit := Response.mk true 200 (inr (Body.mk None tt)).

(** The directory as the server sends it. *)
Definition directory : Response.t (list Restaurant.t) :=
  Response.mk true 200 (inr (Body.mk None [far; unlocated; near])).

(** * Part II: properties *)

(** ** Geocoding helper *)

Section GeoFacts.
Import Geo.
Local Open Scope R_scope.








End GeoFacts.

(** ** The sort *)

Section SortFacts.
Context {A : Type}.
Variable positive : A -> A -> bool.

Lemma sort_insert_perm x l : Permutation (sort_insert positive x l) (x :: l).
Proof.
  induction l as [| y l IH]; simpl.
  - apply Permutation_refl.
  - destruct (positive x y).
    + apply perm_trans with (y :: x :: l).
      * apply perm_skip, IH.
      * apply perm_swap.
    + apply Permutation_refl.
Qed.

Lemma array_sort_perm l : Permutation (array_sort positive l) l.
Proof.
  induction l as [| x l IH]; simpl.
  - apply perm_nil.
  - eapply perm_trans; [apply sort_insert_perm |]. apply perm_skip, IH.
Qed.

(** Sorting by a numeric key: where [comparefn(x, y) > 0] says that [x] has
    the larger key on all elements at hand, the result is ordered. *)
Variable key : A -> R.
Variable P : A -> Prop.
Hypothesis positive_key :
  forall x y, P x -> P y -> (positive x y = true <-> (key y < key x)%R).



End SortFacts.

(** The favourite comparator makes the sort a stable partition. *)
Section FavouriteSort.
Variable fav : string.

Lemma favPositive_spec a b :
  positiveZ (favouriteFirst fav a b) = negb (hasId fav a) && hasId fav b.
Proof.
  unfold positiveZ, favouriteFirst, hasId.
  destruct (String.eqb (Restaurant._id a) fav), (String.eqb (Restaurant._id b) fav);
    reflexivity.
Qed.

Lemma sort_insert_partitioned x fs ns :
  forallb (hasId fav) fs = true ->
  forallb (fun r => negb (hasId fav r)) ns = true ->
  sort_insert (fun a b => positiveZ (favouriteFirst fav a b)) x (fs ++ ns) =
  if hasId fav x then x :: fs ++ ns else fs ++ x :: ns.
Proof.
  intros Hf Hn. induction fs as [| f fs IH]; simpl in *.
  - destruct ns as [| n ns]; simpl.
    + destruct (hasId fav x); reflexivity.
    + apply andb_true_iff in Hn as [Hn _].
      rewrite favPositive_spec. apply negb_true_iff in Hn. rewrite Hn.
      rewrite andb_false_r. destruct (hasId fav x); reflexivity.
  - apply andb_true_iff in Hf as [Hf Hfs].
    rewrite favPositive_spec, Hf, andb_true_r.
    destruct (hasId fav x) eqn:Ex; simpl.
    + reflexivity.
    + rewrite (IH Hfs). reflexivity.
Qed.

Lemma forallb_filter_self {B} (p : B -> bool) l : forallb p (filter p l) = true.
Proof.
  induction l as [| b l IH]; simpl; [reflexivity |].
  destruct (p b) eqn:E; simpl; [rewrite E |]; assumption.
Qed.

Lemma favourite_sort_partition l :
  array_sort (fun a b => positiveZ (favouriteFirst fav a b)) l =
  filter (hasId fav) l ++ filter (fun r => negb (hasId fav r)) l.
Proof.
  induction l as [| x l IH]; simpl; [reflexivity |].
  rewrite IH, sort_insert_partitioned by apply forallb_filter_self.
  destruct (hasId fav x); reflexivity.
Qed.

End FavouriteSort.

(** ** The list renderer *)

Lemma getUserLocation_returns geo st :
  fst (getUserLocation geo st) = Returns (locationSeen geo st).
Proof.
  unfold locationSeen. destruct geo; reflexivity.
Qed.

Lemma getUserLocation_frame geo st :
  currentUser (snd (getUserLocation geo st)) = currentUser st /\
  el (snd (getUserLocation geo st)) = el st /\
  restaurants (snd (getUserLocation geo st)) = restaurants st.
Proof.
  destruct geo; repeat split; reflexivity.
Qed.

Lemma markNearest_restaurant c : Card.restaurant (markNearest c) = Card.restaurant c.
Proof. reflexivity. Qed.

Lemma highlightNearest_restaurants u loc sorted cards :
  map Card.restaurant (highlightNearest u loc sorted cards) = map Card.restaurant cards.
Proof.
  unfold highlightNearest.
  destruct loc as [loc |]; [| reflexivity].
  destruct (favouriteOf u) as [fav |].
  - destruct (findNearest loc fav sorted None None) as [n |]; [| reflexivity].
    induction cards as [| c cs IH]; simpl; [reflexivity |].
    rewrite IH.
    destruct (String.eqb (Restaurant.name (Card.restaurant c)) (Restaurant.name n));
      reflexivity.
  - destruct cards as [| c cs]; [reflexivity |].
    destruct sorted as [| r rest]; [reflexivity |].
    destruct (Restaurant.coordinates r); reflexivity.
Qed.

Lemma map_card_restaurant u loc rs : map Card.restaurant (map (card u loc) rs) = rs.
Proof.
  induction rs as [| r rs IH]; simpl; [reflexivity |]. rewrite IH. reflexivity.
Qed.

(** The cards come out in the order of [sorted]. *)
Lemma renderRestaurants_order geo rs st v :
  El.restaurantList (el st) = Some v ->
  renderedOrder (snd (renderRestaurants geo rs st)) =
  Some (sortedList (currentUser st) (locationSeen geo st) rs).
Proof.
  intros Hv. unfold renderRestaurants, bind, get. simpl. rewrite Hv.
  pose proof (getUserLocation_returns geo st) as Hr.
  destruct (getUserLocation_frame geo st) as (Hu & He & _).
  destruct (getUserLocation geo st) as [res st1]. simpl in *. subst res.
  unfold modify, with_el, renderedOrder, set_restaurantList. simpl.
  rewrite He, Hv, Hu.
  destruct (sortedList (currentUser st) (locationSeen geo st) rs) as [| r rest] eqn:E.
  - reflexivity.
  - rewrite highlightNearest_restaurants, map_card_restaurant. reflexivity.
Qed.

Lemma renderRestaurants_returns geo rs st :
  fst (renderRestaurants geo rs st) = Returns tt.
Proof.
  unfold renderRestaurants, bind, get. simpl.
  destruct (El.restaurantList (el st)); [| reflexivity].
  pose proof (getUserLocation_returns geo st) as Hr.
  destruct (getUserLocation geo st) as [res st1]. simpl in *. subst res.
  reflexivity.
Qed.

Lemma favouriteOf_set u fav :
  User.favouriteRestaurant u = Some fav -> fav <> "" -> favouriteOf (Some u) = Some fav.
Proof.
  intros Hf Hne. unfold favouriteOf. rewrite Hf.
  unfold truthy. destruct (String.eqb_spec fav ""); [contradiction | reflexivity].
Qed.

Lemma filter_hasId_nonempty fav rs :
  In fav (map Restaurant._id rs) ->
  exists r rest, filter (hasId fav) rs = r :: rest /\ Restaurant._id r = fav.
Proof.
  induction rs as [| x rs IH]; simpl; [contradiction |].
  intros [Hx | Hin].
  - exists x, (filter (hasId fav) rs). unfold hasId at 1.
    rewrite Hx, String.eqb_refl. split; reflexivity.
  - destruct (hasId fav x) eqn:E.
    + exists x, (filter (hasId fav) rs). split; [reflexivity |].
      apply String.eqb_eq. exact E.
    + apply IH. assumption.
Qed.

Lemma filter_filter_neg {B} (p : B -> bool) l :
  filter (fun x => negb (p x)) (filter p l) = [].
Proof.
  induction l as [| b l IH]; simpl; [reflexivity |].
  destruct (p b) eqn:E; simpl; [rewrite E |]; assumption.
Qed.

Lemma filter_idem {B} (p : B -> bool) l : filter p (filter p l) = filter p l.
Proof.
  induction l as [| b l IH]; simpl; [reflexivity |].
  destruct (p b) eqn:E; simpl; [rewrite E, IH |]; auto.
Qed.

(** With unique ids, one restaurant at most carries a given id. *)
Lemma filter_hasId_unique fav rs r rest :
  NoDup (map Restaurant._id rs) ->
  filter (hasId fav) rs = r :: rest -> rest = [].
Proof.
  induction rs as [| x rs IH]; simpl; intros Hnd Hf; [discriminate |].
  inversion Hnd as [| ? ? Hnin Hnd']; subst.
  destruct (hasId fav x) eqn:E.
  - injection Hf as <- <-.
    destruct (filter (hasId fav) rs) as [| y ys] eqn:Ey; [reflexivity |].
    exfalso. apply Hnin.
    assert (Hy : In y (filter (hasId fav) rs)) by (rewrite Ey; left; reflexivity).
    apply filter_In in Hy as [Hy Hid].
    apply String.eqb_eq in E. apply String.eqb_eq in Hid.
    rewrite E, <- Hid. apply in_map. assumption.
  - eapply IH; eassumption.
Qed.


(** C1. With a favourite set (a non-empty id) that occurs in the list
    given to the renderer, the first card is a restaurant with that id,
    whatever the geolocation request yields; the restaurants with another
    id keep their relative order, nothing is lost or added, and with
    unique ids the rest of the cards is the input without the favourite. *)
Theorem favourite_rendered_first geo rs st v u fav :
  El.restaurantList (el st) = Some v ->
  currentUser st = Some u ->
  User.favouriteRestaurant u = Some fav ->
  fav <> "" ->
  In fav (map Restaurant._id rs) ->
  exists r others,
    renderedOrder (snd (renderRestaurants geo rs st)) = Some (r :: others) /\
    Restaurant._id r = fav /\
    filter (fun x => negb (hasId fav x)) (r :: others) =
      filter (fun x => negb (hasId fav x)) rs /\
    Permutation (r :: others) rs /\
    (NoDup (map Restaurant._id rs) ->
     others = filter (fun x => negb (hasId fav x)) rs).
Proof.
  intros Hv Hu Hf Hne Hin.
  rewrite (renderRestaurants_order geo rs st v Hv), Hu.
  unfold sortedList. rewrite (favouriteOf_set u fav Hf Hne).
  rewrite favourite_sort_partition.
  destruct (filter_hasId_nonempty fav rs Hin) as (r & rest & Hfav & Hid).
  exists r, (rest ++ filter (fun x => negb (hasId fav x)) rs).
  rewrite Hfav. split; [reflexivity |]. split; [exact Hid |].
  split; [| split].
  - change (r :: rest ++ filter (fun x => negb (hasId fav x)) rs)
      with ((r :: rest) ++ filter (fun x => negb (hasId fav x)) rs).
    rewrite <- Hfav, filter_app, filter_filter_neg, filter_idem. reflexivity.
  - change (r :: rest ++ filter (fun x => negb (hasId fav x)) rs)
      with ((r :: rest) ++ filter (fun x => negb (hasId fav x)) rs).
    rewrite <- Hfav, <- favourite_sort_partition. apply array_sort_perm.
  - intros Hnd. rewrite (filter_hasId_unique fav rs r rest Hnd Hfav). reflexivity.
Qed.

Lemma favourite_rendered_first_witness :
  exists r others,
    renderedOrder (snd (renderRestaurants GeoUnsupported [far; unlocated; near]
                          (with_currentUser (Some student) startup)))
      = Some (r :: others) /\
    Restaurant._id r = "r2" /\
    filter (fun x => negb (hasId "r2" x)) (r :: others) =
      filter (fun x => negb (hasId "r2" x)) [far; unlocated; near] /\
    Permutation (r :: others) [far; unlocated; near] /\
    (NoDup (map Restaurant._id [far; unlocated; near]) ->
     others = filter (fun x => negb (hasId "r2" x)) [far; unlocated; near]).
Proof.
  apply (favourite_rendered_first GeoUnsupported [far; unlocated; near]
           (with_currentUser (Some student) startup) Loading student "r2").
  - reflexivity.
  - reflexivity.
  - reflexivity.
  - discriminate.
  - simpl. auto.
Defined.







(** ** The built-ins at work *)

Lemma decimal_404 : decimal 404 = "404".
Proof. reflexivity. Qed.

Lemma includes_inside : includes "TypeError: Failed to fetch" "Failed to fetch" = true.
Proof. reflexivity. Qed.

Lemma includes_absent : includes "Not found" "Failed to fetch" = false.
Proof. reflexivity. Qed.

Lemma sort_strings_cities :
  sort_strings (unique ["Vantaa"; "Espoo"; "Vantaa"; "Helsinki"]) =
  ["Espoo"; "Helsinki"; "Vantaa"].
Proof. reflexivity. Qed.

Lemma slice_middle : slice [1; 2; 3; 4; 5; 6] 2 4 = [3; 4].
Proof. reflexivity. Qed.

Lemma slice_past_end : slice [1; 2; 3] 2 8 = [3] /\ slice [1; 2; 3] 4 8 = [].
Proof. split; reflexivity. Qed.

(** ** Remote data client *)

Section ApiFetchFacts.
Context {D : Type}.
Variable net : Network D.
Variable url : string.
Variable options : Options.t.
Variable st : State.

(** The state a caught error leaves: one console line, one notification. *)
Lemma apiFetch_rejects err :
  net (requestOf st url options) = FetchRejects err ->
  apiFetch net url options st =
  (Throws err,
   with_alert (notification err)
     (with_log (LogError ["API Error:"; JsError.message err]) st)).
Proof.
  intros H. unfold apiFetch, try_catch, bind, get. simpl. rewrite H. reflexivity.
Qed.

Lemma apiFetch_not_json res err :
  net (requestOf st url options) = FetchResponds res ->
  Response.json res = inl err ->
  apiFetch net url options st =
  (Throws err,
   with_alert (notification err)
     (with_log (LogError ["API Error:"; JsError.message err]) st)).
Proof.
  intros H Hj. unfold apiFetch, try_catch, bind, get. simpl. rewrite H. simpl.
  rewrite Hj. reflexivity.
Qed.

Lemma apiFetch_not_ok res data :
  net (requestOf st url options) = FetchResponds res ->
  Response.json res = inr data ->
  Response.ok res = false ->
  apiFetch net url options st =
  (Throws (Error (failureMessage res data)),
   with_alert (notification (Error (failureMessage res data)))
     (with_log (LogError ["API Error:"; failureMessage res data]) st)).
Proof.
  intros H Hj Hok. unfold apiFetch, try_catch, bind, get. simpl. rewrite H. simpl.
  rewrite Hj. simpl. rewrite Hok. reflexivity.
Qed.

Lemma apiFetch_ok res data :
  net (requestOf st url options) = FetchResponds res ->
  Response.json res = inr data ->
  Response.ok res = true ->
  apiFetch net url options st = (Returns data, st).
Proof.
  intros H Hj Hok. unfold apiFetch, try_catch, bind, get. simpl. rewrite H. simpl.
  rewrite Hj. simpl. rewrite Hok. reflexivity.
Qed.

(** Whatever the network does, a failure leaves the application data as
    it was and a success leaves the whole state as it was. *)
Lemma apiFetch_cases :
  (exists err,
     apiFetch net url options st =
     (Throws err,
      with_alert (notification err)
        (with_log (LogError ["API Error:"; JsError.message err]) st))) \/
  (exists data, apiFetch net url options st = (Returns data, st)).
Proof.
  destruct (net (requestOf st url options)) as [err | res] eqn:H.
  - left. exists err. apply apiFetch_rejects. exact H.
  - destruct (Response.json res) as [err | data] eqn:Hj.
    + left. exists err. eapply apiFetch_not_json; eassumption.
    + destruct (Response.ok res) eqn:Hok.
      * right. exists data. eapply apiFetch_ok; eassumption.
      * left. exists (Error (failureMessage res data)).
        eapply apiFetch_not_ok; eassumption.
Qed.

End ApiFetchFacts.

Lemma notification_plain msg :
  includes msg "Failed to fetch" = false -> notification (Error msg) = msg.
Proof.
  intros H. unfold notification. simpl. rewrite H. reflexivity.
Qed.

(** C3, as stated, fails: the server's own message can speak of a failed
    fetch, and then the notification is the fixed transport text, not the
    message the error carries. *)
Lemma request_error_counterexample :
  Response.ok upstreamFailed = false /\
  fst (apiFetch (answering upstreamFailed) API_BASE Options.empty startup)
    = Throws (Error "Failed to fetch menu") /\
  alerts (snd (apiFetch (answering upstreamFailed) API_BASE Options.empty startup))
    = ["Ei yhteyttä palvelimeen"] /\
  alerts (snd (apiFetch (answering upstreamFailed) API_BASE Options.empty startup))
    <> ["Failed to fetch menu"].
Proof.
  repeat split; try reflexivity. discriminate.
Qed.

(** C3, amended.  For an answer outside the success range whose body
    parses as a JSON document, [apiFetch] fails with an error whose
    message is the document's [message] when that is a non-empty string
    and ["HTTP <status>"] when it is absent or empty, and raises exactly one
    notification; the notification is that same message whenever the
    message does not contain ["Failed to fetch"]. *)
Theorem request_error_reported {D} (net : Network D) url options st res data :
  net (requestOf st url options) = FetchResponds res ->
  Response.ok res = false ->
  Response.json res = inr data ->
  exists msg,
    (forall m, Body.message data = Some m -> m <> "" -> msg = m) /\
    (Body.message data = None \/ Body.message data = Some "" ->
     msg = ("HTTP " ++ decimal (Response.status res))%string) /\
    fst (apiFetch net url options st) = Throws (Error msg) /\
    (exists shown, alerts (snd (apiFetch net url options st)) = alerts st ++ [shown]) /\
    (includes msg "Failed to fetch" = false ->
     alerts (snd (apiFetch net url options st)) = alerts st ++ [msg]).
Proof.
  intros H Hok Hj. exists (failureMessage res data).
  rewrite (apiFetch_not_ok net url options st res data H Hj Hok). simpl.
  repeat split.
  - intros m Hm Hne. unfold failureMessage, or_else, truthy. rewrite Hm.
    destruct (String.eqb_spec m ""); [contradiction | reflexivity].
  - intros [Hm | Hm]; unfold failureMessage, or_else; rewrite Hm; reflexivity.
  - eexists. reflexivity.
  - intros Hinc. rewrite (notification_plain _ Hinc). reflexivity.
Qed.

(** The scenario of the specification: a 404 whose body says "Not found". *)
Lemma request_error_reported_witness :
  fst (apiFetch (answering notFound) API_BASE Options.empty startup)
    = Throws (Error "Not found") /\
  alerts (snd (apiFetch (answering notFound) API_BASE Options.empty startup))
    = ["Not found"].
Proof.
  destruct (request_error_reported (answering notFound) API_BASE Options.empty startup
              notFound (Body.mk (Some "Not found") tt) eq_refl eq_refl eq_refl)
    as (msg & Hmsg & _ & Hthrow & _ & Hshown).
  assert (E : msg = "Not found") by (apply Hmsg; [reflexivity | discriminate]).
  subst msg. split; [exact Hthrow |]. apply Hshown. reflexivity.
Defined.

(** C4, as stated, fails: a transport failure worded otherwise than
    "Failed to fetch" is shown as it is worded; so it is for the
    connection failure as Firefox words it and for a request that timed
    out. *)
Lemma transport_failure_counterexample :
  (fst (apiFetch (D := unit) (unreachable networkError) API_BASE Options.empty startup)
     = Throws networkError /\
   alerts (snd (apiFetch (D := unit) (unreachable networkError) API_BASE Options.empty startup))
     = ["NetworkError when attempting to fetch resource."] /\
   alerts (snd (apiFetch (D := unit) (unreachable networkError) API_BASE Options.empty startup))
     <> ["Ei yhteyttä palvelimeen"]) /\
  (fst (apiFetch (D := unit) (unreachable timedOut) API_BASE Options.empty startup)
     = Throws timedOut /\
   alerts (snd (apiFetch (D := unit) (unreachable timedOut) API_BASE Options.empty startup))
     = ["The operation timed out"]).
Proof.
  repeat split; try reflexivity. discriminate.
Qed.

(** C4, amended.  When [fetch] rejects with an error whose message
    contains ["Failed to fetch"], [apiFetch] fails with that error and
    raises exactly one notification, the fixed text; an error reported by
    the server is shown with that text only if its message contains
    ["Failed to fetch"] or is that text. *)
Theorem transport_failure_reported {D} (net : Network D) url options st err :
  net (requestOf st url options) = FetchRejects err ->
  includes (JsError.message err) "Failed to fetch" = true ->
  fst (apiFetch net url options st) = Throws err /\
  alerts (snd (apiFetch net url options st)) = alerts st ++ ["Ei yhteyttä palvelimeen"] /\
  (forall msg, notification (Error msg) = "Ei yhteyttä palvelimeen" ->
               includes msg "Failed to fetch" = true \/ msg = "Ei yhteyttä palvelimeen").
Proof.
  intros H Hinc. rewrite (apiFetch_rejects net url options st err H). simpl.
  split; [reflexivity |]. split.
  - unfold notification. rewrite Hinc. reflexivity.
  - intros msg. unfold notification. simpl.
    destruct (includes msg "Failed to fetch"); [left; reflexivity | right; assumption].
Qed.

Lemma transport_failure_reported_witness :
  fst (apiFetch (D := unit) (unreachable failedToFetch) API_BASE Options.empty startup)
    = Throws failedToFetch /\
  alerts (snd (apiFetch (D := unit) (unreachable failedToFetch) API_BASE Options.empty startup))
    = [] ++ ["Ei yhteyttä palvelimeen"] /\
  (forall msg, notification (Error msg) = "Ei yhteyttä palvelimeen" ->
               includes msg "Failed to fetch" = true \/ msg = "Ei yhteyttä palvelimeen").
Proof.
  apply (transport_failure_reported (D := unit) (unreachable failedToFetch) API_BASE
           Options.empty startup failedToFetch).
  - reflexivity.
  - reflexivity.
Defined.

(** ** Filters *)

Lemma filter_comm {B} (p q : B -> bool) l :
  filter p (filter q l) = filter q (filter p l).
Proof.
  induction l as [| b l IH]; simpl; [reflexivity |].
  destruct (q b) eqn:Eq, (p b) eqn:Ep; simpl;
    rewrite ?Eq, ?Ep, ?IH; reflexivity.
Qed.

(** C7. City filter then provider filter gives the list that provider
    filter then city filter gives, for every list and every pair of
    control values; so the list [filterAndRender] renders does not depend
    on which of the two is applied first. *)
Theorem filters_commute trim toLowerCase city provider rs st :
  cityThenProvider city provider rs = providerThenCity city provider rs /\
  filtered trim toLowerCase st =
    filterBySearch trim toLowerCase (El.searchInput (el st))
      (providerThenCity (option_map Select.value (El.cityFilter (el st)))
         (option_map Select.value (El.providerFilter (el st)))
         (restaurants st)).
Proof.
  assert (H : forall c p l, cityThenProvider c p l = providerThenCity c p l).
  { intros c p l. unfold cityThenProvider, providerThenCity, filterByCity, filterByProvider.
    destruct c as [c |], p as [p |]; try reflexivity.
    destruct (truthy c), (truthy p); try reflexivity.
    apply filter_comm. }
  split; [apply H |].
  unfold filtered. f_equal. apply H.
Qed.


(** ** Weekly menu *)

(** [ceil5 n] is the least [k] with [n <= 5 * k]. *)
Lemma ceil5_spec n : n <= 5 * ceil5 n /\ 5 * ceil5 n < n + 5.
Proof.
  unfold ceil5.
  pose proof (Nat.div_mod_eq (n + 4) 5) as H.
  pose proof (Nat.mod_upper_bound (n + 4) 5) as Hm.
  lia.
Qed.

Lemma bucket_chunk all i :
  bucket all i = firstn (ceil5 (List.length all)) (skipn (i * ceil5 (List.length all)) all).
Proof.
  unfold bucket, slice. f_equal. lia.
Qed.

Lemma consecutiveChunks_skipn {B} k (l : list B) count i :
  consecutiveChunks k (skipn (i * k) l) count =
  map (fun j => firstn k (skipn (j * k) l)) (seq i count).
Proof.
  revert i. induction count as [| c IH]; intros i; simpl; [reflexivity |].
  f_equal. rewrite skipn_skipn.
  replace (k + i * k) with (S i * k) by lia. apply IH.
Qed.

Lemma buckets_are_chunks all :
  map (bucket all) (seq 0 5) = consecutiveChunks (ceil5 (List.length all)) all 5.
Proof.
  change all with (skipn (0 * ceil5 (List.length all)) all) at 3.
  rewrite consecutiveChunks_skipn.
  apply map_ext. intros i. apply bucket_chunk.
Qed.

Lemma firstn_plus {B} n m (l : list B) :
  firstn (n + m) l = firstn n l ++ firstn m (skipn n l).
Proof.
  revert l. induction n as [| n IH]; intros l; simpl; [reflexivity |].
  destruct l as [| b l]; simpl.
  - rewrite firstn_nil. reflexivity.
  - rewrite IH. reflexivity.
Qed.

Lemma concat_consecutiveChunks {B} k (l : list B) count :
  List.concat (consecutiveChunks k l count) = firstn (count * k) l.
Proof.
  revert l. induction count as [| c IH]; intros l; simpl; [reflexivity |].
  rewrite IH, firstn_plus. reflexivity.
Qed.

Lemma dayContent_courses cs : coursesOf (dayContent cs) = cs.
Proof. destruct cs; reflexivity. Qed.

Lemma chunkedSections_courses lang all :
  map (fun s => coursesOf (snd s)) (chunkedSections lang all) = map (bucket all) (seq 0 5).
Proof.
  unfold chunkedSections. rewrite map_map. apply map_ext.
  intros i. simpl. apply dayContent_courses.
Qed.

(** C10. The five buckets, in order, make up the course list again: the
    slices concatenate to the list, the courses the five sections show
    are the list, and a bucket without courses is shown as the no-meals
    placeholder (never as an empty list of courses). *)
Theorem buckets_partition_courses lang (all : list Course.t) :
  List.concat (map (bucket all) (seq 0 5)) = all /\
  List.concat (map (fun s => coursesOf (snd s)) (chunkedSections lang all)) = all /\
  Forall (fun s => snd s <> DayCourses []) (chunkedSections lang all).
Proof.
  assert (H : List.concat (map (bucket all) (seq 0 5)) = all).
  { rewrite buckets_are_chunks, concat_consecutiveChunks.
    apply firstn_all2. pose proof (ceil5_spec (List.length all)). lia. }
  split; [exact H |]. split.
  - rewrite chunkedSections_courses. exact H.
  - unfold chunkedSections. apply Forall_forall. intros s Hs.
    apply in_map_iff in Hs as (i & <- & _). simpl.
    destruct (bucket all i); discriminate.
Qed.

(** ** Directory refresh *)

Lemma populateFilters_run st :
  exists st', populateFilters st = (Returns tt, st') /\
              restaurants st' = restaurants st.
Proof.
  unfold populateFilters, bind, get. simpl.
  destruct (El.cityFilter (el st)), (El.providerFilter (el st)),
    (El.favoriteRestaurant (el st)); eexists; split; reflexivity.
Qed.

Lemma renderRestaurants_run geo rs st :
  exists st', renderRestaurants geo rs st = (Returns tt, st') /\
              restaurants st' = restaurants st.
Proof.
  unfold renderRestaurants, bind, get. simpl.
  destruct (El.restaurantList (el st)).
  - destruct geo; simpl; eexists; split; reflexivity.
  - eexists; split; reflexivity.
Qed.

Lemma renderMap_run widget geo st :
  exists st', renderMap widget geo st = (Returns tt, st') /\
              restaurants st' = restaurants st.
Proof.
  destruct widget; simpl; try (eexists; split; reflexivity).
  destruct geo; eexists; split; reflexivity.
Qed.

(** C5. A refresh never throws.  When the request succeeds the
    in-memory list becomes the fetched list, whole; when it fails the
    list is the one held before and the list view, if the page has one,
    shows the error placeholder. *)
Theorem refresh_replaces_wholesale net widget geo st :
  fst (fetchRestaurants net widget geo st) = Returns tt /\
  match fst (apiFetch net (API_BASE ++ "/restaurants") Options.empty
               (with_el (set_restaurantList Loading (el st)) st)) with
  | Returns data =>
      restaurants (snd (fetchRestaurants net widget geo st)) = Body.payload data
  | Throws _ =>
      restaurants (snd (fetchRestaurants net widget geo st)) = restaurants st /\
      El.restaurantList (el (snd (fetchRestaurants net widget geo st))) =
        option_map (fun _ => LoadFailed) (El.restaurantList (el st))
  end.
Proof.
  unfold fetchRestaurants, bind, try_catch, modify. cbv beta iota.
  destruct (apiFetch_cases net (API_BASE ++ "/restaurants") Options.empty
              (with_el (set_restaurantList Loading (el st)) st))
    as [(err & H) | (data & H)]; rewrite H; simpl.
  - split; [reflexivity |]. split; [reflexivity |].
    destruct (El.restaurantList (el st)); reflexivity.
  - destruct (populateFilters_run
                (with_restaurants (Body.payload data)
                   (with_el (set_restaurantList Loading (el st)) st)))
      as (s1 & H1 & R1).
    rewrite H1. unfold get. simpl.
    destruct (renderRestaurants_run geo (restaurants s1) s1) as (s2 & H2 & R2).
    rewrite H2.
    destruct (renderMap_run widget geo s2) as (s3 & H3 & R3).
    rewrite H3. simpl. split; [reflexivity |].
    rewrite R3, R2, R1. reflexivity.
Qed.

(** ** Session store *)

(** C9. At startup (no current user yet), with a token and a user in the
    store and [JSON.parse] throwing on the stored user, [loadAuth]
    returns normally: no user becomes current, the page is untouched, no
    notification is raised, and the console gets at most the one error
    line (exactly that line when token and text are non-empty); the
    token read from the store is in memory. *)
Theorem corrupt_stored_user_ignored JSON_parse st tk stored err :
  currentUser st = None ->
  getItem "token" (localStorage st) = Some tk ->
  getItem "currentUser" (localStorage st) = Some stored ->
  JSON_parse stored = inl err ->
  fst (loadAuth JSON_parse st) = Returns tt /\
  currentUser (snd (loadAuth JSON_parse st)) = None /\
  el (snd (loadAuth JSON_parse st)) = el st /\
  alerts (snd (loadAuth JSON_parse st)) = alerts st /\
  restaurants (snd (loadAuth JSON_parse st)) = restaurants st /\
  token (snd (loadAuth JSON_parse st)) = Some tk /\
  console (snd (loadAuth JSON_parse st)) =
    (if truthy tk && truthy stored
     then console st ++ [LogError ["Invalid stored user data"; JsError.message err]]
     else console st).
Proof.
  intros Hu Htk Hst Hparse.
  unfold loadAuth, bind, get, modify, try_catch. cbv beta iota.
  rewrite Hst, Htk, Hparse.
  change (truthy_opt (Some tk)) with (truthy tk).
  destruct (truthy tk && truthy stored); simpl; rewrite Hu; repeat split; reflexivity.
Qed.

Lemma corrupt_stored_user_ignored_witness :
  fst (loadAuth rejectingParser returning) = Returns tt /\
  currentUser (snd (loadAuth rejectingParser returning)) = None /\
  el (snd (loadAuth rejectingParser returning)) = el returning /\
  alerts (snd (loadAuth rejectingParser returning)) = alerts returning /\
  restaurants (snd (loadAuth rejectingParser returning)) = restaurants returning /\
  token (snd (loadAuth rejectingParser returning)) = Some "t1" /\
  console (snd (loadAuth rejectingParser returning)) =
    (if truthy "t1" && truthy "{broken"
     then console returning ++
          [LogError ["Invalid stored user data";
                     "Unexpected token b in JSON at position 1"]]
     else console returning).
Proof.
  apply (corrupt_stored_user_ignored rejectingParser returning "t1" "{broken"
           (JsError.mk "SyntaxError" "Unexpected token b in JSON at position 1")).
  - reflexivity.
  - reflexivity.
  - reflexivity.
  - reflexivity.
Defined.

(** ** Weekly menu viewer *)

Lemma chunkedSections_headings lang all :
  map fst (chunkedSections lang all) = map Weekday (firstn 5 (weekdays lang)).
Proof.
  unfold chunkedSections, weekdays. destruct (String.eqb lang "en"); reflexivity.
Qed.

Lemma length_ten {B} (l : list B) :
  List.length l = 10 ->
  exists a b c d e f g h i j, l = [a; b; c; d; e; f; g; h; i; j].
Proof.
  intros H.
  do 10 (destruct l as [| ? l]; [discriminate |]).
  destruct l; [| discriminate].
  repeat eexists.
Qed.

(** C6. When the weekly answer has exactly one day entry and that entry
    has courses, the overlay shows exactly five sections, headed by the
    first five weekday names, whose courses are the five consecutive
    chunks of size [k] of the course list, [k] being the ceiling of a
    fifth of its length; ten courses give five buckets of two. *)
Theorem single_day_week_in_five_buckets net id st r overlay res data d all :
  find (fun x => String.eqb (Restaurant._id x) id) (restaurants st) = Some r ->
  El.menuDisplay (el st) = Some overlay ->
  net (requestOf st (weeklyUrl st id) Options.empty) = FetchResponds res ->
  Response.ok res = true ->
  Response.json res = inr data ->
  Week.days (Body.payload data) = [d] ->
  Day.courses d = Some all ->
  exists sections,
    shownSections (snd (showWeeklyMenu net id st)) = Some sections /\
    List.length sections = 5 /\
    map fst sections = map Weekday (firstn 5 (weekdays (selectedLang st))) /\
    map (fun s => coursesOf (snd s)) sections =
      consecutiveChunks (ceil5 (List.length all)) all 5 /\
    (List.length all <= 5 * ceil5 (List.length all) /\
     5 * ceil5 (List.length all) < List.length all + 5) /\
    (List.length all = 10 ->
     Forall (fun s => List.length (coursesOf (snd s)) = 2) sections).
Proof.
  intros Hfind Hov Hnet Hok Hjson Hdays Hcourses.
  exists (chunkedSections (selectedLang st) all).
  split.
  - unfold showWeeklyMenu, bind, get, try_catch. cbv beta iota.
    rewrite Hfind.
    rewrite (apiFetch_ok net (weeklyUrl st id) Options.empty st res data Hnet Hjson Hok).
    cbv beta iota.
    unfold weeklySections. rewrite Hdays, Hcourses.
    unfold displayMenu, modify, shownSections, set_menuDisplay. simpl.
    rewrite Hov. reflexivity.
  - split; [reflexivity |].
    split; [apply chunkedSections_headings |].
    split; [rewrite chunkedSections_courses; apply buckets_are_chunks |].
    split; [apply ceil5_spec |].
    intros Hten.
    destruct (length_ten all Hten) as (a & b & c & e & f & g & h & i & j & k & ->).
    unfold chunkedSections. simpl. repeat constructor.
Qed.

Lemma single_day_week_in_five_buckets_witness :
  exists sections,
    shownSections (snd (showWeeklyMenu (answering oneDayWeek) "r1" browsing))
      = Some sections /\
    List.length sections = 5 /\
    map fst sections = map Weekday (firstn 5 (weekdays (selectedLang browsing))) /\
    map (fun s => coursesOf (snd s)) sections =
      consecutiveChunks (ceil5 (List.length tenCourses)) tenCourses 5 /\
    (List.length tenCourses <= 5 * ceil5 (List.length tenCourses) /\
     5 * ceil5 (List.length tenCourses) < List.length tenCourses + 5) /\
    (List.length tenCourses = 10 ->
     Forall (fun s => List.length (coursesOf (snd s)) = 2) sections).
Proof.
  apply (single_day_week_in_five_buckets (answering oneDayWeek) "r1" browsing far
           (Overlay.mk (TitleName "") NoMeals false) oneDayWeek
           (Body.mk None (Week.mk [Day.mk None (Some tenCourses)]))
           (Day.mk None (Some tenCourses)) tenCourses).
  - reflexivity.
  - reflexivity.
  - reflexivity.
  - reflexivity.
  - reflexivity.
  - reflexivity.
  - reflexivity.
Defined.

(** * Part III: further properties of the script *)

(** ** Distance *)



(** ** Remote data client *)

(** X2. Whatever the network does, [apiFetch] leaves the application
    data, the page and the store as they are; it returns without a trace,
    or throws after exactly one console line and exactly one
    notification for the error it throws. *)
Theorem apiFetch_effects {D} (net : Network D) url options st :
  restaurants (snd (apiFetch net url options st)) = restaurants st /\
  currentUser (snd (apiFetch net url options st)) = currentUser st /\
  token (snd (apiFetch net url options st)) = token st /\
  userLocation (snd (apiFetch net url options st)) = userLocation st /\
  selectedLang (snd (apiFetch net url options st)) = selectedLang st /\
  localStorage (snd (apiFetch net url options st)) = localStorage st /\
  el (snd (apiFetch net url options st)) = el st /\
  match fst (apiFetch net url options st) with
  | Returns _ =>
      alerts (snd (apiFetch net url options st)) = alerts st /\
      console (snd (apiFetch net url options st)) = console st
  | Throws err =>
      alerts (snd (apiFetch net url options st)) = alerts st ++ [notification err] /\
      console (snd (apiFetch net url options st)) =
        console st ++ [LogError ["API Error:"; JsError.message err]]
  end.
Proof.
  destruct (apiFetch_cases net url options st) as [(err & H) | (data & H)];
    rewrite H; simpl; repeat split; reflexivity.
Qed.

Lemma getItem_obj_set_same key v o : getItem key (obj_set key v o) = Some v.
Proof.
  induction o as [| [k w] o IH]; simpl.
  - rewrite String.eqb_refl. reflexivity.
  - destruct (String.eqb k key) eqn:E; simpl; rewrite E; [reflexivity | exact IH].
Qed.

Lemma getItem_obj_set_other key key' v o :
  key' <> key -> getItem key' (obj_set key v o) = getItem key' o.
Proof.
  intros Hne. induction o as [| [k w] o IH]; simpl.
  - destruct (String.eqb_spec key key'); [congruence | reflexivity].
  - destruct (String.eqb k key) eqn:E; simpl.
    + apply String.eqb_eq in E. subst k.
      destruct (String.eqb_spec key key'); [congruence | reflexivity].
    + destruct (String.eqb k key'); [reflexivity | exact IH].
Qed.

(** X3. The request carries [Authorization: Bearer <token>] for the
    in-memory token when that is non-empty, else for the stored token
    when that is non-empty, replacing a header of that name the caller
    gave; with neither token the caller's header goes out as given. *)
Theorem bearer_token_attached st url options :
  getItem "Authorization" (Options.headers (Request.options (requestOf st url options))) =
  match (if truthy_opt (token st) then token st
         else if truthy_opt (getItem "token" (localStorage st))
              then getItem "token" (localStorage st) else None) with
  | Some tk => Some ("Bearer " ++ tk)%string
  | None => getItem "Authorization" (Options.headers options)
  end.
Proof.
  assert (Hct : forall h,
    getItem "Authorization"
      (if isFormData (Options.body options) then h
       else obj_set "Content-Type" "application/json" h) = getItem "Authorization" h).
  { intros h. destruct (isFormData (Options.body options)); [reflexivity |].
    apply getItem_obj_set_other. discriminate. }
  unfold requestOf, requestHeaders. simpl.
  destruct (truthy_opt (token st)) eqn:Et.
  - destruct (token st) as [tk |]; [| discriminate]. simpl in Et. rewrite Et.
    apply getItem_obj_set_same.
  - destruct (getItem "token" (localStorage st)) as [tk |]; simpl.
    + destruct (truthy tk); [apply getItem_obj_set_same | apply Hct].
    + apply Hct.
Qed.

(** X4. For a body that is not form data the request says
    [Content-Type: application/json], whatever content type the caller
    gave; for form data the content type is the caller's, so none when
    the caller gave none. *)
Theorem content_type_sent st url options :
  getItem "Content-Type" (Options.headers (Request.options (requestOf st url options))) =
  if isFormData (Options.body options)
  then getItem "Content-Type" (Options.headers options)
  else Some "application/json".
Proof.
  assert (Hauth : forall tk h,
    getItem "Content-Type" (obj_set "Authorization" tk h) = getItem "Content-Type" h).
  { intros tk h. apply getItem_obj_set_other. discriminate. }
  unfold requestOf, requestHeaders. simpl.
  destruct (if truthy_opt (token st) then token st
            else getItem "token" (localStorage st)) as [tk |].
  - destruct (truthy tk); rewrite ?Hauth;
      destruct (isFormData (Options.body options));
      try reflexivity; apply getItem_obj_set_same.
  - destruct (isFormData (Options.body options));
      [reflexivity | apply getItem_obj_set_same].
Qed.

(** X5. An answer whose body is not JSON is a failure whatever its
    status, a success status included: [apiFetch] throws the error of the
    parser and raises one notification for it. *)
Theorem unparsable_body_fails {D} (net : Network D) url options st res err :
  net (requestOf st url options) = FetchResponds res ->
  Response.json res = inl err ->
  fst (apiFetch net url options st) = Throws err /\
  alerts (snd (apiFetch net url options st)) = alerts st ++ [notification err].
Proof.
  intros H Hj. rewrite (apiFetch_not_json net url options st res err H Hj).
  split; reflexivity.
Qed.

(** ** Filters *)

Lemma filter_true {B} (l : list B) : filter (fun _ => true) l = l.
Proof.
  induction l as [| b l IH]; simpl; [reflexivity |]. rewrite IH. reflexivity.
Qed.

Lemma filter_and {B} (p q : B -> bool) l :
  filter q (filter p l) = filter (fun x => p x && q x) l.
Proof.
  induction l as [| b l IH]; simpl; [reflexivity |].
  destruct (p b) eqn:Ep; simpl; [destruct (q b); rewrite IH; reflexivity | exact IH].
Qed.

Lemma filterByCity_filter value rs : filterByCity value rs = filter (cityMatches value) rs.
Proof.
  unfold filterByCity, cityMatches. destruct value as [v |].
  - destruct (truthy v); [reflexivity | symmetry; apply filter_true].
  - symmetry. apply filter_true.
Qed.

Lemma filterByProvider_filter value rs :
  filterByProvider value rs = filter (providerMatches value) rs.
Proof.
  unfold filterByProvider, providerMatches. destruct value as [v |].
  - destruct (truthy v); [reflexivity | symmetry; apply filter_true].
  - symmetry. apply filter_true.
Qed.

Lemma filterBySearch_filter trim toLowerCase value rs :
  filterBySearch trim toLowerCase value rs =
  filter (searchMatches trim toLowerCase value) rs.
Proof.
  unfold filterBySearch, searchMatches. destruct value as [v |].
  - destruct (truthy (trim v)); [reflexivity | symmetry; apply filter_true].
  - symmetry. apply filter_true.
Qed.

Lemma filtered_filter trim toLowerCase st :
  filtered trim toLowerCase st =
  filter (passesFilters trim toLowerCase st) (restaurants st).
Proof.
  unfold filtered, passesFilters.
  rewrite filterBySearch_filter, filterByProvider_filter, filterByCity_filter.
  rewrite !filter_and. apply filter_ext. intros r.
  rewrite andb_assoc. reflexivity.
Qed.

(** X6. The list handed to the renderer holds exactly the restaurants of
    the directory that pass the city control and the provider control
    and the search box, in directory order, each as often as the
    directory has it. *)
Theorem filters_are_a_conjunction trim toLowerCase st :
  filtered trim toLowerCase st =
    filter (passesFilters trim toLowerCase st) (restaurants st) /\
  (forall r, In r (filtered trim toLowerCase st) <->
             In r (restaurants st) /\ passesFilters trim toLowerCase st r = true).
Proof.
  split; [apply filtered_filter |].
  intros r. rewrite filtered_filter. apply filter_In.
Qed.

(** X7. Filtering is idempotent: with the same controls, the filtered
    list filtered again is the filtered list. *)
Theorem filtering_idempotent trim toLowerCase st :
  filtered trim toLowerCase (with_restaurants (filtered trim toLowerCase st) st) =
  filtered trim toLowerCase st.
Proof.
  rewrite (filtered_filter trim toLowerCase (with_restaurants _ st)).
  simpl restaurants. rewrite filtered_filter.
  change (passesFilters trim toLowerCase
            (with_restaurants (filter (passesFilters trim toLowerCase st) (restaurants st)) st))
    with (passesFilters trim toLowerCase st).
  apply filter_idem.
Qed.

(** X8. Controls that are missing or empty, and a search box holding
    only what [trim] removes, filter nothing: the renderer gets the whole
    directory. *)
Theorem idle_controls_filter_nothing trim toLowerCase st :
  (forall s, El.cityFilter (el st) = Some s -> Select.value s = "") ->
  (forall s, El.providerFilter (el st) = Some s -> Select.value s = "") ->
  (forall v, El.searchInput (el st) = Some v -> trim v = "") ->
  filtered trim toLowerCase st = restaurants st.
Proof.
  intros Hc Hp Hs. unfold filtered.
  assert (Ec : filterByCity (option_map Select.value (El.cityFilter (el st))) (restaurants st)
               = restaurants st).
  { destruct (El.cityFilter (el st)) as [s |]; simpl; [| reflexivity].
    rewrite (Hc s eq_refl). reflexivity. }
  rewrite Ec.
  assert (Ep : filterByProvider (option_map Select.value (El.providerFilter (el st)))
                 (restaurants st) = restaurants st).
  { destruct (El.providerFilter (el st)) as [s |]; simpl; [| reflexivity].
    rewrite (Hp s eq_refl). reflexivity. }
  rewrite Ep.
  destruct (El.searchInput (el st)) as [v |]; simpl; [| reflexivity].
  rewrite (Hs v eq_refl). reflexivity.
Qed.

(** ** The list renderer, further *)

Lemma sortedList_perm u loc rs : Permutation (sortedList u loc rs) rs.
Proof.
  unfold sortedList. destruct (favouriteOf u); [apply array_sort_perm |].
  destruct loc; [apply array_sort_perm | apply Permutation_refl].
Qed.

(** What the list container holds after a render. *)
Lemma renderRestaurants_view geo rs st v :
  El.restaurantList (el st) = Some v ->
  El.restaurantList (el (snd (renderRestaurants geo rs st))) =
  Some (match sortedList (currentUser st) (locationSeen geo st) rs with
        | [] => NoResults
        | _ :: _ =>
            Cards (highlightNearest (currentUser st) (locationSeen geo st)
                     (sortedList (currentUser st) (locationSeen geo st) rs)
                     (map (card (currentUser st) (locationSeen geo st))
                        (sortedList (currentUser st) (locationSeen geo st) rs)))
        end).
Proof.
  intros Hv. unfold renderRestaurants, bind, get. simpl. rewrite Hv.
  pose proof (getUserLocation_returns geo st) as Hr.
  destruct (getUserLocation_frame geo st) as (Hu & He & _).
  destruct (getUserLocation geo st) as [res st1]. simpl in *. subst res.
  unfold modify, with_el, set_restaurantList. simpl.
  rewrite He, Hv, Hu.
  destruct (sortedList (currentUser st) (locationSeen geo st) rs); reflexivity.
Qed.

(** X9. A render shows the no-results placeholder for an empty list and
    otherwise one card per restaurant of the list, the cards being a
    rearrangement of the list; without a favourite and without a
    location the cards are in the order of the list. *)
Theorem one_card_per_restaurant geo rs st v :
  El.restaurantList (el st) = Some v ->
  (rs = [] ->
   El.restaurantList (el (snd (renderRestaurants geo rs st))) = Some NoResults) /\
  (rs <> [] ->
   exists cs,
     El.restaurantList (el (snd (renderRestaurants geo rs st))) = Some (Cards cs) /\
     Permutation (map Card.restaurant cs) rs) /\
  (favouriteOf (currentUser st) = None -> locationSeen geo st = None ->
   renderedOrder (snd (renderRestaurants geo rs st)) = Some rs).
Proof.
  intros Hv. rewrite (renderRestaurants_view geo rs st v Hv).
  pose proof (sortedList_perm (currentUser st) (locationSeen geo st) rs) as Hp.
  split; [| split].
  - intros ->. apply Permutation_sym, Permutation_nil in Hp. rewrite Hp. reflexivity.
  - intros Hne.
    destruct (sortedList (currentUser st) (locationSeen geo st) rs) as [| r rest] eqn:E.
    + apply Permutation_nil in Hp. contradiction.
    + eexists. split; [reflexivity |].
      rewrite highlightNearest_restaurants, map_card_restaurant. exact Hp.
  - intros Hf Hl.
    rewrite (renderRestaurants_order geo rs st v Hv).
    unfold sortedList. rewrite Hf, Hl. reflexivity.
Qed.






(** ** Geolocation *)

(** X12. A position, once obtained, is what the next call yields as long
    as the browser supports geolocation, whether the next request fails
    or brings a newer position; without support the call yields nothing
    even then. *)
Theorem obtained_position_is_served st pos geo :
  locationSeen geo (snd (getUserLocation (GeoPosition pos) st)) =
  match geo with
  | GeoUnsupported => None
  | _ => Some pos
  end.
Proof.
  destruct geo; reflexivity.
Qed.

(** ** Filter options *)

Section SortByOrder.
Context {A : Type}.
Variable positive : A -> A -> bool.
Variable le : A -> A -> Prop.
Hypothesis positive_true : forall x y, positive x y = true -> le y x.
Hypothesis positive_false : forall x y, positive x y = false -> le x y.
Hypothesis le_trans : forall x y z, le x y -> le y z -> le x z.

Lemma sort_insert_ordered x l :
  StronglySorted le l -> StronglySorted le (sort_insert positive x l).
Proof.
  intros Hs. induction l as [| y l IH]; simpl.
  - repeat constructor.
  - inversion Hs as [| ? ? Hsl Hall]; subst.
    destruct (positive x y) eqn:E.
    + constructor; [apply IH; exact Hsl |].
      eapply Permutation_Forall; [apply Permutation_sym, sort_insert_perm |].
      constructor; [apply positive_true; exact E | exact Hall].
    + constructor; [exact Hs |].
      constructor; [apply positive_false; exact E |].
      eapply Forall_impl; [| exact Hall].
      intros a Ha. eapply le_trans; [apply positive_false; exact E | exact Ha].
Qed.

Lemma array_sort_ordered l : StronglySorted le (array_sort positive l).
Proof.
  induction l as [| x l IH]; simpl; [constructor | apply sort_insert_ordered; exact IH].
Qed.

End SortByOrder.

Lemma ascii_compare_lt_trans a b c :
  Ascii.compare a b = Lt -> Ascii.compare b c = Lt -> Ascii.compare a c = Lt.
Proof.
  unfold Ascii.compare. rewrite !N.compare_lt_iff. apply N.lt_trans.
Qed.

Lemma string_compare_lt_trans a :
  forall b c, String.compare a b = Lt -> String.compare b c = Lt -> String.compare a c = Lt.
Proof.
  induction a as [| x a IH]; intros [| y b] [| z c]; simpl; try discriminate; try reflexivity.
  destruct (Ascii.compare x y) eqn:Exy; try discriminate;
    destruct (Ascii.compare y z) eqn:Eyz; try discriminate; intros Hab Hbc.
  - apply Ascii.compare_eq_iff in Exy, Eyz. subst. 
    assert (E : Ascii.compare z z = Eq).
    { unfold Ascii.compare. apply N.compare_refl. }
    rewrite E. eapply IH; eassumption.
  - apply Ascii.compare_eq_iff in Exy. subst. rewrite Eyz. reflexivity.
  - apply Ascii.compare_eq_iff in Eyz. subst. rewrite Exy. reflexivity.
  - rewrite (ascii_compare_lt_trans x y z Exy Eyz). reflexivity.
Qed.

Lemma string_compare_refl a : String.compare a a = Eq.
Proof.
  induction a as [| x a IH]; simpl; [reflexivity |].
  assert (E : Ascii.compare x x = Eq) by (unfold Ascii.compare; apply N.compare_refl).
  rewrite E. exact IH.
Qed.

Lemma string_le_trans a b c :
  String.compare a b <> Gt -> String.compare b c <> Gt -> String.compare a c <> Gt.
Proof.
  intros Hab Hbc.
  destruct (String.compare a b) eqn:Eab; [| | congruence].
  - apply String.compare_eq_iff in Eab. subst. exact Hbc.
  - destruct (String.compare b c) eqn:Ebc; [| | congruence].
    + apply String.compare_eq_iff in Ebc. subst. rewrite Eab. discriminate.
    + rewrite (string_compare_lt_trans a b c Eab Ebc). discriminate.
Qed.

Lemma sort_strings_ordered l :
  StronglySorted (fun a b => String.compare a b <> Gt) (sort_strings l).
Proof.
  unfold sort_strings. apply array_sort_ordered.
  - intros x y H. rewrite String.compare_antisym.
    destruct (String.compare x y); simpl; discriminate.
  - intros x y H. destruct (String.compare x y); discriminate.
  - apply string_le_trans.
Qed.

Lemma unique_In x l : In x (unique l) <-> In x l.
Proof.
  induction l as [| y l IH]; simpl; [reflexivity |].
  rewrite filter_In, IH. split.
  - intros [H | [H _]]; auto.
  - intros [H | H]; [left; exact H |].
    destruct (String.eqb_spec x y) as [-> | Hne]; [left; reflexivity |].
    right. split; [exact H | reflexivity].
Qed.

Lemma unique_NoDup l : NoDup (unique l).
Proof.
  induction l as [| y l IH]; simpl; constructor.
  - rewrite filter_In. intros [_ H]. rewrite String.eqb_refl in H. discriminate.
  - apply NoDup_filter. exact IH.
Qed.

Lemma ordered_NoDup_strict l :
  StronglySorted (fun a b => String.compare a b <> Gt) l -> NoDup l ->
  StronglySorted (fun a b => String.compare a b = Lt) l.
Proof.
  induction 1 as [| x l Hs IH Hall]; intros Hnd; constructor.
  - apply IH. inversion Hnd; assumption.
  - inversion Hnd as [| ? ? Hnin _]; subst.
    rewrite Forall_forall in *. intros y Hy.
    specialize (Hall y Hy).
    destruct (String.compare x y) eqn:E; [| reflexivity | congruence].
    apply String.compare_eq_iff in E. subst. contradiction.
Qed.

(** The options a sorted, duplicate-free pass over a column gives. *)
Lemma sorted_unique_column l :
  StronglySorted (fun a b => String.compare a b = Lt) (sort_strings (unique l)) /\
  (forall x, In x (sort_strings (unique l)) <-> In x l).
Proof.
  assert (Hp : Permutation (sort_strings (unique l)) (unique l))
    by (unfold sort_strings; apply array_sort_perm).
  split.
  - apply ordered_NoDup_strict; [apply sort_strings_ordered |].
    eapply Permutation_NoDup; [apply Permutation_sym, Hp | apply unique_NoDup].
  - intros x. split; intros H.
    + apply unique_In. eapply Permutation_in; [exact Hp | exact H].
    + apply unique_In in H. eapply Permutation_in; [apply Permutation_sym, Hp | exact H].
Qed.

(** X13. When the page has the two filter selects and the favourite
    select, [populateFilters] leaves in the city select, after its first
    option, one option per city of the directory, text and value alike,
    in strictly increasing order (so without duplicates); likewise the
    providers; and in the favourite select one option per restaurant, in
    directory order, titled by name and valued by id. *)
Theorem filter_options_sorted_unique st c p f :
  El.cityFilter (el st) = Some c ->
  El.providerFilter (el st) = Some p ->
  El.favoriteRestaurant (el st) = Some f ->
  exists c' p' f',
    El.cityFilter (el (snd (populateFilters st))) = Some c' /\
    El.providerFilter (el (snd (populateFilters st))) = Some p' /\
    El.favoriteRestaurant (el (snd (populateFilters st))) = Some f' /\
    map fst (Select.others c') = map snd (Select.others c') /\
    StronglySorted (fun a b => String.compare a b = Lt) (map snd (Select.others c')) /\
    (forall x, In x (map snd (Select.others c')) <->
               In x (map Restaurant.city (restaurants st))) /\
    map fst (Select.others p') = map snd (Select.others p') /\
    StronglySorted (fun a b => String.compare a b = Lt) (map snd (Select.others p')) /\
    (forall x, In x (map snd (Select.others p')) <->
               In x (map Restaurant.company (restaurants st))) /\
    Select.others f' =
      map (fun r => (Restaurant.name r, Restaurant._id r)) (restaurants st).
Proof.
  intros Hc Hp Hf.
  unfold populateFilters, bind, get. simpl. rewrite Hc, Hp, Hf. simpl.
  do 3 eexists. split; [reflexivity |]. split; [reflexivity |]. split; [reflexivity |].
  simpl. rewrite !map_map. simpl. rewrite !map_id.
  destruct (sorted_unique_column (map Restaurant.city (restaurants st))) as [Hsc Hmc].
  destruct (sorted_unique_column (map Restaurant.company (restaurants st))) as [Hsp Hmp].
  repeat split; try assumption; try apply Hmc; try apply Hmp.
Qed.

(** ** Session store, further *)

(** The session is shown as logged in. *)
Lemma updateAuthUI_state st :
  updateAuthUI st =
  (Returns tt,
   with_el
     (set_authButtons
        (toggleHidden
           (match currentUser st with Some _ => truthy_opt (token st) | None => false end)
           (El.loginBtn (el st)))
        (toggleHidden
           (match currentUser st with Some _ => truthy_opt (token st) | None => false end)
           (El.registerBtn (el st)))
        (match currentUser st with
         | Some u =>
             if truthy_opt (token st)
             then option_map (fun b => Button.mk (Button.hidden b) (User.username u))
                    (toggleHidden (negb (truthy_opt (token st))) (El.profileBtn (el st)))
             else toggleHidden (negb (truthy_opt (token st))) (El.profileBtn (el st))
         | None => toggleHidden true (El.profileBtn (el st))
         end)
        (toggleHidden
           (negb (match currentUser st with Some _ => truthy_opt (token st) | None => false end))
           (El.logoutBtn (el st)))
        (el st))
     st).
Proof.
  unfold updateAuthUI, bind, get, modify. cbv beta iota zeta.
  destruct (currentUser st); reflexivity.
Qed.

Lemma loadProfileData_frame st :
  fst (loadProfileData st) = Returns tt /\
  currentUser (snd (loadProfileData st)) = currentUser st /\
  token (snd (loadProfileData st)) = token st /\
  localStorage (snd (loadProfileData st)) = localStorage st /\
  restaurants (snd (loadProfileData st)) = restaurants st /\
  alerts (snd (loadProfileData st)) = alerts st /\
  El.loginBtn (el (snd (loadProfileData st))) = El.loginBtn (el st) /\
  El.registerBtn (el (snd (loadProfileData st))) = El.registerBtn (el st) /\
  El.profileBtn (el (snd (loadProfileData st))) = El.profileBtn (el st) /\
  El.logoutBtn (el (snd (loadProfileData st))) = El.logoutBtn (el st).
Proof.
  unfold loadProfileData, bind, get, modify. simpl.
  destruct (currentUser st) as [u |] eqn:Eu; simpl;
    [| rewrite ?Eu; repeat split; reflexivity].
  destruct (El.profilePic (el st)) eqn:Ep; simpl;
    [| rewrite ?Eu; repeat split; reflexivity].
  destruct (truthy_opt (User.avatar u)); simpl; rewrite ?Eu; repeat split; reflexivity.
Qed.

(** X14. After [updateAuthUI] the login and register buttons are hidden
    exactly when a user is current and the token is non-empty, the
    profile and logout buttons exactly when not, so the two groups never
    show together; a second call changes nothing. *)
Theorem auth_buttons_exclusive st :
  option_map Button.hidden (El.loginBtn (el (snd (updateAuthUI st)))) =
    option_map (fun _ => match currentUser st with
                         | Some _ => truthy_opt (token st)
                         | None => false
                         end) (El.loginBtn (el st)) /\
  option_map Button.hidden (El.registerBtn (el (snd (updateAuthUI st)))) =
    option_map (fun _ => match currentUser st with
                         | Some _ => truthy_opt (token st)
                         | None => false
                         end) (El.registerBtn (el st)) /\
  option_map Button.hidden (El.profileBtn (el (snd (updateAuthUI st)))) =
    option_map (fun _ => negb match currentUser st with
                              | Some _ => truthy_opt (token st)
                              | None => false
                              end) (El.profileBtn (el st)) /\
  option_map Button.hidden (El.logoutBtn (el (snd (updateAuthUI st)))) =
    option_map (fun _ => negb match currentUser st with
                              | Some _ => truthy_opt (token st)
                              | None => false
                              end) (El.logoutBtn (el st)) /\
  updateAuthUI (snd (updateAuthUI st)) = updateAuthUI st.
Proof.
  rewrite (updateAuthUI_state (snd (updateAuthUI st))).
  rewrite !updateAuthUI_state. simpl.
  destruct (currentUser st) as [u |]; simpl;
    [destruct (truthy_opt (token st)); simpl |];
    destruct (El.loginBtn (el st)), (El.registerBtn (el st)),
      (El.profileBtn (el st)), (El.logoutBtn (el st)); simpl;
    repeat split; reflexivity.
Qed.

Section SessionFacts.
Variable JSON_parse : string -> JsError.t + option User.t.

(** The state a successful restore leaves. *)
Lemma loadAuth_restores st tk stored u :
  getItem "token" (localStorage st) = Some tk ->
  getItem "currentUser" (localStorage st) = Some stored ->
  tk <> "" -> stored <> "" ->
  JSON_parse stored = inr u ->
  loadAuth JSON_parse st =
  (Returns tt,
   snd (loadProfileData
          (snd (updateAuthUI (with_currentUser u (with_token (Some tk) st)))))).
Proof.
  intros Htk Hst Hne1 Hne2 Hparse.
  unfold loadAuth, bind, get, modify, try_catch. cbv beta iota.
  rewrite Hst, Htk, Hparse.
  change (truthy_opt (Some tk)) with (truthy tk).
  unfold truthy.
  destruct (String.eqb_spec tk ""); [contradiction |].
  destruct (String.eqb_spec stored ""); [contradiction |].
  change (negb false && negb false) with true. cbv beta iota.
  unfold settle, ret. cbv beta iota.
  rewrite updateAuthUI_state. cbv beta iota.
  match goal with
  | |- context [loadProfileData ?x] => remember x as shown eqn:Eshown
  end.
  cbn [snd].
  destruct (loadProfileData_frame shown) as (Hr & _).
  destruct (loadProfileData shown) as [r s]. simpl in Hr. subst r. reflexivity.
Qed.

End SessionFacts.

Lemma getItem_removed key store :
  getItem key (filter (fun kv => negb (String.eqb (fst kv) key)) store) = None.
Proof.
  induction store as [| [k v] store IH]; simpl; [reflexivity |].
  destruct (String.eqb k key) eqn:E; simpl; [exact IH | rewrite E; exact IH].
Qed.

Lemma getItem_remove_other key key' store :
  key' <> key ->
  getItem key' (filter (fun kv => negb (String.eqb (fst kv) key)) store) = getItem key' store.
Proof.
  intros Hne. induction store as [| [k v] store IH]; simpl; [reflexivity |].
  destruct (String.eqb k key) eqn:E; simpl.
  - apply String.eqb_eq in E. subst k.
    destruct (String.eqb_spec key key'); [congruence | exact IH].
  - destruct (String.eqb k key'); [reflexivity | exact IH].
Qed.

(** X15. With a non-empty token and a non-empty user text in the store
    that parses to a user object, [loadAuth] returns normally with that
    user current and the token in memory, raises no notification, hides
    the login and register buttons, shows the profile and logout buttons
    and titles the profile button with the user name. *)
Theorem stored_session_restored JSON_parse st tk stored user :
  getItem "token" (localStorage st) = Some tk ->
  getItem "currentUser" (localStorage st) = Some stored ->
  tk <> "" -> stored <> "" ->
  JSON_parse stored = inr (Some user) ->
  fst (loadAuth JSON_parse st) = Returns tt /\
  currentUser (snd (loadAuth JSON_parse st)) = Some user /\
  token (snd (loadAuth JSON_parse st)) = Some tk /\
  alerts (snd (loadAuth JSON_parse st)) = alerts st /\
  El.loginBtn (el (snd (loadAuth JSON_parse st))) =
    option_map (fun b => Button.mk true (Button.textContent b)) (El.loginBtn (el st)) /\
  El.registerBtn (el (snd (loadAuth JSON_parse st))) =
    option_map (fun b => Button.mk true (Button.textContent b)) (El.registerBtn (el st)) /\
  El.profileBtn (el (snd (loadAuth JSON_parse st))) =
    option_map (fun _ => Button.mk false (User.username user)) (El.profileBtn (el st)) /\
  El.logoutBtn (el (snd (loadAuth JSON_parse st))) =
    option_map (fun b => Button.mk false (Button.textContent b)) (El.logoutBtn (el st)).
Proof.
  intros Htk Hst Hne1 Hne2 Hparse.
  rewrite (loadAuth_restores JSON_parse st tk stored (Some user) Htk Hst Hne1 Hne2 Hparse).
  rewrite updateAuthUI_state. cbn [fst snd].
  match goal with
  | |- context [loadProfileData ?x] =>
      destruct (loadProfileData_frame x)
        as (_ & Hu & Ht & _ & _ & Ha & Hb1 & Hb2 & Hb3 & Hb4)
  end.
  rewrite Hu, Ht, Ha, Hb1, Hb2, Hb3, Hb4. simpl.
  assert (Htr : truthy tk = true).
  { unfold truthy. destruct (String.eqb_spec tk ""); [contradiction | reflexivity]. }
  rewrite Htr. simpl.
  repeat split; try reflexivity.
  destruct (El.profileBtn (el st)); reflexivity.
Qed.

Lemma stored_session_restored_witness :
  fst (loadAuth studentParser remembered) = Returns tt /\
  currentUser (snd (loadAuth studentParser remembered)) = Some student /\
  token (snd (loadAuth studentParser remembered)) = Some "t1" /\
  alerts (snd (loadAuth studentParser remembered)) = alerts remembered /\
  El.loginBtn (el (snd (loadAuth studentParser remembered))) =
    option_map (fun b => Button.mk true (Button.textContent b)) (El.loginBtn (el remembered)) /\
  El.registerBtn (el (snd (loadAuth studentParser remembered))) =
    option_map (fun b => Button.mk true (Button.textContent b))
      (El.registerBtn (el remembered)) /\
  El.profileBtn (el (snd (loadAuth studentParser remembered))) =
    option_map (fun _ => Button.mk false (User.username student))
      (El.profileBtn (el remembered)) /\
  El.logoutBtn (el (snd (loadAuth studentParser remembered))) =
    option_map (fun b => Button.mk false (Button.textContent b)) (El.logoutBtn (el remembered)).
Proof.
  apply (stored_session_restored studentParser remembered "t1" "{u}" student).
  - reflexivity.
  - reflexivity.
  - discriminate.
  - discriminate.
  - reflexivity.
Defined.

Lemma incomplete_store_restores_nothing_helper JSON_parse st :
  getItem "token" (localStorage st) = None \/
  getItem "currentUser" (localStorage st) = None ->
  loadAuth JSON_parse st =
  (Returns tt, with_token (getItem "token" (localStorage st)) st).
Proof.
  intros H. unfold loadAuth, bind, get, modify. cbv beta iota.
  destruct (getItem "currentUser" (localStorage st)) as [stored |]; [| reflexivity].
  destruct H as [H | H]; [| discriminate].
  rewrite H. reflexivity.
Qed.

(** X16. Without a token in the store, or without a user in the store,
    [loadAuth] activates nobody and parses nothing: it only sets the
    in-memory token to what the store has for it, dropping a token held
    in memory when the store has none. *)
Theorem incomplete_store_restores_nothing JSON_parse st :
  getItem "token" (localStorage st) = None \/
  getItem "currentUser" (localStorage st) = None ->
  fst (loadAuth JSON_parse st) = Returns tt /\
  token (snd (loadAuth JSON_parse st)) = getItem "token" (localStorage st) /\
  currentUser (snd (loadAuth JSON_parse st)) = currentUser st /\
  el (snd (loadAuth JSON_parse st)) = el st /\
  alerts (snd (loadAuth JSON_parse st)) = alerts st /\
  console (snd (loadAuth JSON_parse st)) = console st /\
  localStorage (snd (loadAuth JSON_parse st)) = localStorage st.
Proof.
  intros H. rewrite (incomplete_store_restores_nothing_helper JSON_parse st H).
  repeat split; reflexivity.
Qed.

Lemma incomplete_store_restores_nothing_witness :
  fst (loadAuth rejectingParser (with_token (Some "old") startup)) = Returns tt /\
  token (snd (loadAuth rejectingParser (with_token (Some "old") startup))) =
    getItem "token" (localStorage (with_token (Some "old") startup)) /\
  currentUser (snd (loadAuth rejectingParser (with_token (Some "old") startup))) =
    currentUser (with_token (Some "old") startup) /\
  el (snd (loadAuth rejectingParser (with_token (Some "old") startup))) =
    el (with_token (Some "old") startup) /\
  alerts (snd (loadAuth rejectingParser (with_token (Some "old") startup))) =
    alerts (with_token (Some "old") startup) /\
  console (snd (loadAuth rejectingParser (with_token (Some "old") startup))) =
    console (with_token (Some "old") startup) /\
  localStorage (snd (loadAuth rejectingParser (with_token (Some "old") startup))) =
    localStorage (with_token (Some "old") startup).
Proof.
  apply (incomplete_store_restores_nothing rejectingParser (with_token (Some "old") startup)).
  left. reflexivity.
Defined.

Lemma saveAuth_state JSON_stringify user tkn st :
  fst (saveAuth JSON_stringify user tkn st) = Returns tt /\
  currentUser (snd (saveAuth JSON_stringify user tkn st)) = Some user /\
  token (snd (saveAuth JSON_stringify user tkn st)) = Some tkn /\
  localStorage (snd (saveAuth JSON_stringify user tkn st)) =
    obj_set "currentUser" (JSON_stringify user) (obj_set "token" tkn (localStorage st)).
Proof.
  unfold saveAuth, setItem, bind, modify. cbv beta iota.
  rewrite updateAuthUI_state. cbv beta iota.
  match goal with
  | |- context [loadProfileData ?x] =>
      destruct (loadProfileData_frame x) as (Hr & Hu & Ht & Hl & _)
  end.
  rewrite Hr, Hu, Ht, Hl. repeat split; reflexivity.
Qed.

(** X17. What [saveAuth] stores, [loadAuth] restores: in any later state
    with the store [saveAuth] left, provided the token is non-empty and
    the parser reads back the printed user, [loadAuth] makes that user
    current and that token the in-memory token. *)
Theorem saved_session_round_trip JSON_stringify JSON_parse user tkn st later :
  tkn <> "" ->
  JSON_stringify user <> "" ->
  JSON_parse (JSON_stringify user) = inr (Some user) ->
  localStorage later = localStorage (snd (saveAuth JSON_stringify user tkn st)) ->
  getItem "token" (localStorage later) = Some tkn /\
  getItem "currentUser" (localStorage later) = Some (JSON_stringify user) /\
  fst (loadAuth JSON_parse later) = Returns tt /\
  currentUser (snd (loadAuth JSON_parse later)) = Some user /\
  token (snd (loadAuth JSON_parse later)) = Some tkn.
Proof.
  intros Hne1 Hne2 Hparse Hstore.
  destruct (saveAuth_state JSON_stringify user tkn st) as (_ & _ & _ & Hl).
  rewrite Hl in Hstore.
  assert (Htk : getItem "token" (localStorage later) = Some tkn).
  { rewrite Hstore, getItem_obj_set_other by discriminate. apply getItem_obj_set_same. }
  assert (Hus : getItem "currentUser" (localStorage later) = Some (JSON_stringify user)).
  { rewrite Hstore. apply getItem_obj_set_same. }
  split; [exact Htk |]. split; [exact Hus |].
  rewrite (loadAuth_restores JSON_parse later tkn (JSON_stringify user) (Some user)
             Htk Hus Hne1 Hne2 Hparse).
  rewrite updateAuthUI_state. cbn [fst snd].
  match goal with
  | |- context [loadProfileData ?x] =>
      destruct (loadProfileData_frame x) as (_ & Hu & Ht & _)
  end.
  rewrite Hu, Ht. repeat split; reflexivity.
Qed.

Lemma saved_session_round_trip_witness :
  getItem "token"
    (localStorage (snd (saveAuth studentPrinter student "t1" startup))) = Some "t1" /\
  getItem "currentUser"
    (localStorage (snd (saveAuth studentPrinter student "t1" startup)))
    = Some (studentPrinter student) /\
  fst (loadAuth studentParser (snd (saveAuth studentPrinter student "t1" startup)))
    = Returns tt /\
  currentUser
    (snd (loadAuth studentParser (snd (saveAuth studentPrinter student "t1" startup))))
    = Some student /\
  token
    (snd (loadAuth studentParser (snd (saveAuth studentPrinter student "t1" startup))))
    = Some "t1".
Proof.
  apply (saved_session_round_trip studentPrinter studentParser student "t1" startup
           (snd (saveAuth studentPrinter student "t1" startup))).
  - discriminate.
  - discriminate.
  - reflexivity.
  - reflexivity.
Defined.

Lemma logout_state profileSection st :
  logout profileSection st =
  (Returns (option_map (fun _ => true) profileSection),
   snd (updateAuthUI
          (with_localStorage
             (filter (fun kv => negb (String.eqb (fst kv) "currentUser"))
                (filter (fun kv => negb (String.eqb (fst kv) "token")) (localStorage st)))
             (with_currentUser None (with_token None st))))).
Proof.
  unfold logout, removeItem, bind, modify, ret. cbv beta iota.
  rewrite updateAuthUI_state. reflexivity.
Qed.

(** X18. After [logout] no user is current and no token is in memory,
    the store has neither entry, the profile section (if the page has
    one) is hidden, and the login button shows while the logout button
    is hidden; a request made then carries
    only the [Authorization] header its caller gave, and a [loadAuth]
    then activates nobody. *)
Theorem logout_ends_session JSON_parse profileSection st :
  fst (logout profileSection st) = Returns (option_map (fun _ => true) profileSection) /\
  currentUser (snd (logout profileSection st)) = None /\
  token (snd (logout profileSection st)) = None /\
  getItem "token" (localStorage (snd (logout profileSection st))) = None /\
  getItem "currentUser" (localStorage (snd (logout profileSection st))) = None /\
  option_map Button.hidden (El.loginBtn (el (snd (logout profileSection st)))) =
    option_map (fun _ => false) (El.loginBtn (el st)) /\
  option_map Button.hidden (El.logoutBtn (el (snd (logout profileSection st)))) =
    option_map (fun _ => true) (El.logoutBtn (el st)) /\
  (forall url options,
     getItem "Authorization"
       (Options.headers (Request.options
          (requestOf (snd (logout profileSection st)) url options))) =
     getItem "Authorization" (Options.headers options)) /\
  currentUser (snd (loadAuth JSON_parse (snd (logout profileSection st)))) = None.
Proof.
  rewrite logout_state, updateAuthUI_state. cbn [fst snd].
  assert (Ht : forall ls,
    getItem "token"
      (filter (fun kv => negb (String.eqb (fst kv) "currentUser"))
         (filter (fun kv => negb (String.eqb (fst kv) "token")) ls)) = None).
  { intros ls. rewrite getItem_remove_other by discriminate. apply getItem_removed. }
  split; [reflexivity |]. split; [reflexivity |]. split; [reflexivity |].
  split; [apply Ht |]. split; [apply getItem_removed |].
  split; [simpl; destruct (El.loginBtn (el st)); reflexivity |].
  split; [simpl; destruct (El.logoutBtn (el st)); reflexivity |].
  split.
  - intros url options. unfold requestOf, requestHeaders. simpl.
    rewrite Ht.
    destruct (isFormData (Options.body options)); [reflexivity |].
    apply getItem_obj_set_other. discriminate.
  - match goal with
    | |- context [loadAuth JSON_parse ?x] =>
        rewrite (incomplete_store_restores_nothing_helper JSON_parse x)
    end.
    + reflexivity.
    + left. simpl. apply Ht.
Qed.

(** ** Menu viewer, further *)

Lemma find_absent id rs :
  (forall r, In r rs -> Restaurant._id r <> id) ->
  find (fun x => String.eqb (Restaurant._id x) id) rs = None.
Proof.
  induction rs as [| r rs IH]; intros H; simpl; [reflexivity |].
  destruct (String.eqb_spec (Restaurant._id r) id) as [Heq | _].
  - exfalso. apply (H r); [left; reflexivity | exact Heq].
  - apply IH. intros r' Hr'. apply H. right. exact Hr'.
Qed.

(** X19. For an id that no restaurant of the directory has, the daily
    and the weekly menu action do nothing: no request, no notification,
    the overlay and everything else as before. *)
Theorem unknown_restaurant_ignored netDaily netWeekly id st :
  (forall r, In r (restaurants st) -> Restaurant._id r <> id) ->
  showDailyMenu netDaily id st = (Returns tt, st) /\
  showWeeklyMenu netWeekly id st = (Returns tt, st).
Proof.
  intros H. unfold showDailyMenu, showWeeklyMenu, bind, get. cbv beta iota.
  rewrite (find_absent id (restaurants st) H). split; reflexivity.
Qed.

Lemma unknown_restaurant_ignored_witness :
  showDailyMenu (answering todaysMenu) "r9" browsing = (Returns tt, browsing) /\
  showWeeklyMenu (answering oneDayWeek) "r9" browsing = (Returns tt, browsing).
Proof.
  apply (unknown_restaurant_ignored (answering todaysMenu) (answering oneDayWeek)
           "r9" browsing).
  intros r [<- | [<- | [<- | []]]]; discriminate.
Defined.

(** X20. When the request for the weekly menu of a known restaurant
    fails, nothing is thrown: the overlay (if the page has one) is shown
    with the restaurant name as title and the no-meals placeholder, and
    the one notification is the one [apiFetch] raised. *)
Theorem weekly_failure_shows_placeholder net id st r err :
  find (fun x => String.eqb (Restaurant._id x) id) (restaurants st) = Some r ->
  fst (apiFetch net (weeklyUrl st id) Options.empty st) = Throws err ->
  fst (showWeeklyMenu net id st) = Returns tt /\
  El.menuDisplay (el (snd (showWeeklyMenu net id st))) =
    option_map (fun _ => Overlay.mk (TitleName (Restaurant.name r)) NoMeals true)
      (El.menuDisplay (el st)) /\
  alerts (snd (showWeeklyMenu net id st)) = alerts st ++ [notification err] /\
  restaurants (snd (showWeeklyMenu net id st)) = restaurants st.
Proof.
  intros Hfind Hthrow.
  unfold showWeeklyMenu, bind, get, try_catch. cbv beta iota. rewrite Hfind.
  destruct (apiFetch_cases net (weeklyUrl st id) Options.empty st)
    as [(e & H) | (data & H)]; rewrite H in Hthrow |- *; simpl in Hthrow.
  - injection Hthrow as ->. simpl.
    destruct (El.menuDisplay (el st)); repeat split; reflexivity.
  - discriminate.
Qed.

Lemma weekly_failure_shows_placeholder_witness :
  fst (showWeeklyMenu (unreachable failedToFetch) "r1" browsing) = Returns tt /\
  El.menuDisplay (el (snd (showWeeklyMenu (unreachable failedToFetch) "r1" browsing))) =
    option_map (fun _ => Overlay.mk (TitleName (Restaurant.name far)) NoMeals true)
      (El.menuDisplay (el browsing)) /\
  alerts (snd (showWeeklyMenu (unreachable failedToFetch) "r1" browsing)) =
    alerts browsing ++ [notification failedToFetch] /\
  restaurants (snd (showWeeklyMenu (unreachable failedToFetch) "r1" browsing)) =
    restaurants browsing.
Proof.
  apply (weekly_failure_shows_placeholder (unreachable failedToFetch) "r1" browsing far
           failedToFetch).
  - reflexivity.
  - reflexivity.
Defined.

Lemma translate_supported key st :
  selectedLang st = "fi" \/ selectedLang st = "en" ->
  exists text, translate key st = (Returns text, st).
Proof.
  intros H. unfold translate, bind, get, I18n.t, I18n.translations. cbv beta iota.
  destruct H as [-> | ->]; simpl; eexists; reflexivity.
Qed.

(** X21. With the interface language Finnish or English, the daily menu
    action for a known restaurant never throws.  On an answer it shows
    the overlay titled as the daily menu of the restaurant, with the
    courses of the answer in their order, or the no-meals placeholder
    when the answer has no courses or none in them, and raises no
    notification; on a failed request it shows the restaurant name with
    the placeholder, after the one notification of [apiFetch]. *)
Theorem daily_menu_shown net id st r :
  find (fun x => String.eqb (Restaurant._id x) id) (restaurants st) = Some r ->
  selectedLang st = "fi" \/ selectedLang st = "en" ->
  fst (showDailyMenu net id st) = Returns tt /\
  match fst (apiFetch net (dailyUrl st id) Options.empty st) with
  | Returns data =>
      El.menuDisplay (el (snd (showDailyMenu net id st))) =
        option_map
          (fun _ =>
             Overlay.mk (TitleDaily (Restaurant.name r))
               (match Daily.courses (Body.payload data) with
                | Some (c :: cs) => CourseList (c :: cs)
                | _ => NoMeals
                end) true)
          (El.menuDisplay (el st)) /\
      alerts (snd (showDailyMenu net id st)) = alerts st
  | Throws err =>
      El.menuDisplay (el (snd (showDailyMenu net id st))) =
        option_map (fun _ => Overlay.mk (TitleName (Restaurant.name r)) NoMeals true)
          (El.menuDisplay (el st)) /\
      alerts (snd (showDailyMenu net id st)) = alerts st ++ [notification err]
  end.
Proof.
  intros Hfind Hlang.
  assert (E : showDailyMenu net id st =
    match apiFetch net (dailyUrl st id) Options.empty st with
    | (Returns data, s) =>
        displayMenu (TitleDaily (Restaurant.name r))
          (courseMenu match Daily.courses (Body.payload data) with
                      | Some cs => cs
                      | None => []
                      end) s
    | (Throws _, s) => displayMenu (TitleName (Restaurant.name r)) NoMeals s
    end).
  { unfold showDailyMenu. unfold bind at 1, get at 1. cbv beta iota. rewrite Hfind.
    unfold try_catch. unfold bind at 1.
    destruct (apiFetch_cases net (dailyUrl st id) Options.empty st)
      as [(e & H) | (data & H)]; rewrite H; cbv beta iota.
    - unfold bind.
      destruct (translate_supported "noMenu"
                  (with_alert (notification e)
                     (with_log (LogError ["API Error:"; JsError.message e]) st)) Hlang)
        as (text & Ht).
      rewrite Ht. reflexivity.
    - unfold bind.
      destruct (translate_supported "menuDay" st Hlang) as (text & Ht).
      rewrite Ht. reflexivity. }
  rewrite E.
  destruct (apiFetch_cases net (dailyUrl st id) Options.empty st)
    as [(e & H) | (data & H)]; rewrite H; simpl.
  - destruct (El.menuDisplay (el st)); repeat split; reflexivity.
  - destruct (Daily.courses (Body.payload data)) as [[| c cs] |];
      destruct (El.menuDisplay (el st)); repeat split; reflexivity.
Qed.

Lemma daily_menu_shown_witness :
  fst (showDailyMenu (answering todaysMenu) "r1" browsing) = Returns tt /\
  match fst (apiFetch (answering todaysMenu) (dailyUrl browsing "r1") Options.empty browsing)
  with
  | Returns data =>
      El.menuDisplay (el (snd (showDailyMenu (answering todaysMenu) "r1" browsing))) =
        option_map
          (fun _ =>
             Overlay.mk (TitleDaily (Restaurant.name far))
               (match Daily.courses (Body.payload data) with
                | Some (c :: cs) => CourseList (c :: cs)
                | _ => NoMeals
                end) true)
          (El.menuDisplay (el browsing)) /\
      alerts (snd (showDailyMenu (answering todaysMenu) "r1" browsing)) = alerts browsing
  | Throws err =>
      El.menuDisplay (el (snd (showDailyMenu (answering todaysMenu) "r1" browsing))) =
        option_map (fun _ => Overlay.mk (TitleName (Restaurant.name far)) NoMeals true)
          (El.menuDisplay (el browsing)) /\
      alerts (snd (showDailyMenu (answering todaysMenu) "r1" browsing)) =
        alerts browsing ++ [notification err]
  end.
Proof.
  apply (daily_menu_shown (answering todaysMenu) "r1" browsing far).
  - reflexivity.
  - left. reflexivity.
Defined.

Lemma dailySections_length lang i ds :
  List.length (dailySections lang i ds) = List.length ds.
Proof.
  revert i. induction ds as [| d ds IH]; intros i; simpl; [reflexivity |].
  rewrite IH. reflexivity.
Qed.

Lemma dailySections_courses lang i ds :
  map (fun s => coursesOf (snd s)) (dailySections lang i ds) =
  map (fun d => match Day.courses d with Some cs => cs | None => [] end) ds.
Proof.
  revert i. induction ds as [| d ds IH]; intros i; simpl; [reflexivity |].
  rewrite IH. f_equal.
  destruct (Day.courses d) as [cs |]; [apply dayContent_courses | reflexivity].
Qed.

Lemma dailySections_headings lang i ds :
  forall k d, nth_error ds k = Some d ->
    nth_error (map fst (dailySections lang i ds)) k =
    Some (if truthy_opt (Day.date d)
          then DateHeading (or_else (Day.date d) "")
          else Weekday (nth ((i + k) mod 7) (weekdays lang) "")).
Proof.
  revert i. induction ds as [| d0 ds IH]; intros i k d Hk.
  - destruct k; discriminate.
  - destruct k as [| k]; simpl in *.
    + injection Hk as ->. rewrite Nat.add_0_r. reflexivity.
    + rewrite (IH (S i) k d Hk). replace (S i + k) with (i + S k) by lia. reflexivity.
Qed.

(** X22. A weekly answer that is not a single day entry with courses is
    shown day by day: one section per day entry, in order, each with the
    courses of its day (none for a day without courses), headed by the
    date of the day when it has one and else by the weekday name of its
    position, counted from Monday and wrapping after Sunday. *)
Theorem week_shown_day_by_day lang week :
  (forall d, Week.days week = [d] -> Day.courses d = None) ->
  List.length (weeklySections lang week) = List.length (Week.days week) /\
  map (fun s => coursesOf (snd s)) (weeklySections lang week) =
    map (fun d => match Day.courses d with Some cs => cs | None => [] end)
      (Week.days week) /\
  (forall k d, nth_error (Week.days week) k = Some d ->
     nth_error (map fst (weeklySections lang week)) k =
     Some (if truthy_opt (Day.date d)
           then DateHeading (or_else (Day.date d) "")
           else Weekday (nth (k mod 7) (weekdays lang) ""))).
Proof.
  intros Hshape.
  assert (E : weeklySections lang week = dailySections lang 0 (Week.days week)).
  { unfold weeklySections. destruct (Week.days week) as [| d [| d' ds]]; try reflexivity.
    rewrite (Hshape d eq_refl). reflexivity. }
  rewrite E. split; [apply dailySections_length |].
  split; [apply dailySections_courses |].
  intros k d Hk. apply (dailySections_headings lang 0 (Week.days week) k d Hk).
Qed.

Lemma week_shown_day_by_day_witness :
  List.length (weeklySections "fi" threeDays) = List.length (Week.days threeDays) /\
  map (fun s => coursesOf (snd s)) (weeklySections "fi" threeDays) =
    map (fun d => match Day.courses d with Some cs => cs | None => [] end)
      (Week.days threeDays) /\
  (forall k d, nth_error (Week.days threeDays) k = Some d ->
     nth_error (map fst (weeklySections "fi" threeDays)) k =
     Some (if truthy_opt (Day.date d)
           then DateHeading (or_else (Day.date d) "")
           else Weekday (nth (k mod 7) (weekdays "fi") ""))).
Proof.
  apply (week_shown_day_by_day "fi" threeDays).
  intros d H. discriminate H.
Defined.

Lemma bucket_length all i :
  List.length (bucket all i) =
  Nat.min (ceil5 (List.length all)) (List.length all - i * ceil5 (List.length all)).
Proof.
  rewrite bucket_chunk, length_firstn, length_skipn. reflexivity.
Qed.

(** X23. The bucket of day [i] has [min k (n - i * k)] courses, for [n]
    courses and [k] the ceiling of [n / 5]: no bucket has more than [k],
    buckets are filled from Monday on, and when [n] is a multiple of
    five every bucket has exactly [n / 5]. *)
Theorem bucket_sizes (all : list Course.t) i :
  List.length (bucket all i) =
    Nat.min (ceil5 (List.length all)) (List.length all - i * ceil5 (List.length all)) /\
  List.length (bucket all i) <= ceil5 (List.length all) /\
  List.length (bucket all (S i)) <= List.length (bucket all i) /\
  (forall m, List.length all = 5 * m -> i < 5 -> List.length (bucket all i) = m).
Proof.
  rewrite !bucket_length.
  split; [reflexivity |]. split; [apply Nat.le_min_l |]. split.
  - apply Nat.min_le_compat_l. simpl. lia.
  - intros m Hm Hi.
    assert (Hk : ceil5 (List.length all) = m).
    { pose proof (ceil5_spec (List.length all)). lia. }
    rewrite Hk, Hm. apply Nat.min_l. nia.
Qed.

(** ** Username check *)

Lemma usernameChar_spec c :
  usernameChar c = true <->
  (97 <= nat_of_ascii c <= 122 \/ 65 <= nat_of_ascii c <= 90 \/
   48 <= nat_of_ascii c <= 57 \/ nat_of_ascii c = 95 \/ nat_of_ascii c = 45).
Proof.
  unfold usernameChar.
  rewrite !orb_true_iff, !andb_true_iff, !Nat.leb_le, !Nat.eqb_eq. tauto.
Qed.

(** X24. [isValidUsername] accepts exactly the texts of 3 to 20
    characters that are all ASCII letters, digits, underscores or
    hyphens; so an accepted name has no space, quote, ampersand, slash,
    semicolon, angle bracket or backslash in it. *)
Theorem valid_username_characters username :
  (isValidUsername username = true <->
   3 <= String.length username <= 20 /\
   forall c, In c (list_ascii_of_string username) ->
     97 <= nat_of_ascii c <= 122 \/ 65 <= nat_of_ascii c <= 90 \/
     48 <= nat_of_ascii c <= 57 \/ nat_of_ascii c = 95 \/ nat_of_ascii c = 45) /\
  (isValidUsername username = true ->
   forall c, In c (list_ascii_of_string username) ->
     ~ In (nat_of_ascii c) [32; 34; 38; 39; 47; 59; 60; 62; 92]).
Proof.
  assert (Hiff : isValidUsername username = true <->
    3 <= String.length username <= 20 /\
    forall c, In c (list_ascii_of_string username) ->
      97 <= nat_of_ascii c <= 122 \/ 65 <= nat_of_ascii c <= 90 \/
      48 <= nat_of_ascii c <= 57 \/ nat_of_ascii c = 95 \/ nat_of_ascii c = 45).
  { unfold isValidUsername.
    rewrite !andb_true_iff, !Nat.leb_le, forallb_forall.
    split.
    - intros [[H1 H2] H3]. split; [lia |].
      intros c Hc. apply usernameChar_spec, H3, Hc.
    - intros [[H1 H2] H3]. repeat split; try assumption.
      intros c Hc. apply usernameChar_spec, H3, Hc. }
  split; [exact Hiff |].
  intros Hv c Hc. apply Hiff in Hv as [_ Hchars].
  specialize (Hchars c Hc). simpl. lia.
Qed.

(** ** Translation table *)





(** ** What the renders leave alone *)

Lemma renderRestaurants_frame geo rs st :
  fst (renderRestaurants geo rs st) = Returns tt /\
  currentUser (snd (renderRestaurants geo rs st)) = currentUser st /\
  token (snd (renderRestaurants geo rs st)) = token st /\
  localStorage (snd (renderRestaurants geo rs st)) = localStorage st /\
  alerts (snd (renderRestaurants geo rs st)) = alerts st /\
  selectedLang (snd (renderRestaurants geo rs st)) = selectedLang st /\
  restaurants (snd (renderRestaurants geo rs st)) = restaurants st.
Proof.
  unfold renderRestaurants, bind, get. simpl.
  destruct (El.restaurantList (el st)); [| repeat split; reflexivity].
  destruct geo; simpl; repeat split; reflexivity.
Qed.

Lemma renderMap_frame widget geo st :
  fst (renderMap widget geo st) = Returns tt /\
  el (snd (renderMap widget geo st)) = el st /\
  currentUser (snd (renderMap widget geo st)) = currentUser st /\
  token (snd (renderMap widget geo st)) = token st /\
  localStorage (snd (renderMap widget geo st)) = localStorage st /\
  alerts (snd (renderMap widget geo st)) = alerts st /\
  selectedLang (snd (renderMap widget geo st)) = selectedLang st /\
  restaurants (snd (renderMap widget geo st)) = restaurants st.
Proof.
  destruct widget; simpl; try (repeat split; reflexivity).
  destruct geo; repeat split; reflexivity.
Qed.

Lemma filterAndRender_state trim toLowerCase widget geo st :
  filterAndRender trim toLowerCase widget geo st =
  (Returns tt,
   snd (renderMap widget geo
          (snd (renderRestaurants geo (filtered trim toLowerCase st) st)))).
Proof.
  unfold filterAndRender, bind, get. cbv beta iota.
  destruct (renderRestaurants_frame geo (filtered trim toLowerCase st) st) as (Hr & _).
  destruct (renderRestaurants geo (filtered trim toLowerCase st) st) as [r s1].
  simpl in Hr. subst r. cbv beta iota. cbn [snd].
  destruct (renderMap_frame widget geo s1) as (Hm & _).
  destruct (renderMap widget geo s1) as [r s2]. simpl in Hm. subst r. reflexivity.
Qed.

Lemma sortedList_favourite_head u loc fav rs :
  favouriteOf u = Some fav ->
  In fav (map Restaurant._id rs) ->
  exists r others, sortedList u loc rs = r :: others /\ Restaurant._id r = fav.
Proof.
  intros Hf Hin. unfold sortedList. rewrite Hf, favourite_sort_partition.
  destruct (filter_hasId_nonempty fav rs Hin) as (r & rest & Hfav & Hid).
  rewrite Hfav. exists r, (rest ++ filter (fun x => negb (hasId fav x)) rs).
  split; [reflexivity | exact Hid].
Qed.

(** ** Setting the favourite *)

Section SetFavouriteFacts.
Variable trim : string -> string.
Variable toLowerCase : string -> string.
Variable JSON_stringify : User.t -> string.
Variable JSON_stringify_favourite : string -> string.
Context {D : Type}.
Variable net : Network D.
Variable widget : MapWidget.
Variable geo : Geolocation.

(** X26. Without a current user, or without a non-empty token in
    memory, setting a favourite does nothing at all: no request, no
    notification, no change. *)
Theorem favourite_needs_session id st :
  currentUser st = None \/ truthy_opt (token st) = false ->
  setFavoriteRestaurant trim toLowerCase JSON_stringify JSON_stringify_favourite
    net widget geo id st = (Returns tt, st).
Proof.
  intros H. unfold setFavoriteRestaurant, bind, get. cbv beta iota.
  destruct (currentUser st) as [u |]; [| reflexivity].
  destruct H as [H | H]; [discriminate |]. rewrite H. reflexivity.
Qed.

(** The request that carries the new favourite. *)
Lemma setFavourite_request id st u :
  currentUser st = Some u -> truthy_opt (token st) = true ->
  setFavoriteRestaurant trim toLowerCase JSON_stringify JSON_stringify_favourite
    net widget geo id st =
  try_catch
    (apiFetch net (API_BASE ++ "/users")
       (Options.mk (Some "PUT") [] (Some (TextBody (JSON_stringify_favourite id)))) ;;
     st <- get ;;
     match currentUser st with
     | None =>
         throw (JsError.mk "TypeError"
                  "Cannot set properties of null (setting 'favouriteRestaurant')")
     | Some u =>
         modify (with_currentUser (Some (withFavourite id u))) ;;
         setItem "currentUser" (JSON_stringify (withFavourite id u)) ;;
         filterAndRender trim toLowerCase widget geo ;;
         text <- translate "favSet" ;;
         alert text
     end)
    (fun _ => text <- translate "favFail" ;; alert text) st.
Proof.
  intros Hu Ht. unfold setFavoriteRestaurant at 1. unfold bind at 1, get at 1.
  cbv beta iota. rewrite Hu, Ht. reflexivity.
Qed.

(** X27. When the server refuses the new favourite (the request fails),
    the current user, the store and the page stay as they were, and the
    user is told twice: the notification of [apiFetch], then the text
    for ["favFail"]. *)
Theorem refused_favourite_changes_nothing id st u err text :
  currentUser st = Some u ->
  truthy_opt (token st) = true ->
  fst (apiFetch net (API_BASE ++ "/users")
         (Options.mk (Some "PUT") [] (Some (TextBody (JSON_stringify_favourite id)))) st)
    = Throws err ->
  I18n.t (selectedLang st) "favFail" = Returns text ->
  fst (setFavoriteRestaurant trim toLowerCase JSON_stringify JSON_stringify_favourite
         net widget geo id st) = Returns tt /\
  currentUser (snd (setFavoriteRestaurant trim toLowerCase JSON_stringify
                      JSON_stringify_favourite net widget geo id st)) = Some u /\
  localStorage (snd (setFavoriteRestaurant trim toLowerCase JSON_stringify
                       JSON_stringify_favourite net widget geo id st)) = localStorage st /\
  el (snd (setFavoriteRestaurant trim toLowerCase JSON_stringify
             JSON_stringify_favourite net widget geo id st)) = el st /\
  alerts (snd (setFavoriteRestaurant trim toLowerCase JSON_stringify
                 JSON_stringify_favourite net widget geo id st)) =
    alerts st ++ [notification err; text].
Proof.
  intros Hu Ht Hthrow Htext.
  assert (E :
    setFavoriteRestaurant trim toLowerCase JSON_stringify JSON_stringify_favourite
      net widget geo id st =
    (Returns tt,
     with_alert text
       (with_alert (notification err)
          (with_log (LogError ["API Error:"; JsError.message err]) st)))).
  { rewrite (setFavourite_request id st u Hu Ht).
    unfold try_catch. unfold bind at 1.
    destruct (apiFetch_cases net (API_BASE ++ "/users")
                (Options.mk (Some "PUT") [] (Some (TextBody (JSON_stringify_favourite id))))
                st) as [(e & H) | (data & H)]; rewrite H in Hthrow |- *; simpl in Hthrow;
      [| discriminate].
    injection Hthrow as ->. cbv beta iota.
    unfold translate, bind, get, alert, modify. cbv beta iota.
    cbn [selectedLang with_alert with_log]. rewrite Htext. reflexivity. }
  rewrite E. simpl. rewrite <- app_assoc. repeat split; try reflexivity. exact Hu.
Qed.

(** X28. When the server accepts, the current user gets the new
    favourite, the store gets the printed user, the list is rendered
    again from the filtered directory and the text for ["favSet"] is the
    one notification; if the page has a list container and the new
    favourite, a non-empty id, is in the filtered directory, its card
    comes first. *)
Theorem accepted_favourite_comes_first id st u v data text :
  currentUser st = Some u ->
  truthy_opt (token st) = true ->
  El.restaurantList (el st) = Some v ->
  fst (apiFetch net (API_BASE ++ "/users")
         (Options.mk (Some "PUT") [] (Some (TextBody (JSON_stringify_favourite id)))) st)
    = Returns data ->
  I18n.t (selectedLang st) "favSet" = Returns text ->
  id <> "" ->
  In id (map Restaurant._id (filtered trim toLowerCase st)) ->
  fst (setFavoriteRestaurant trim toLowerCase JSON_stringify JSON_stringify_favourite
         net widget geo id st) = Returns tt /\
  currentUser (snd (setFavoriteRestaurant trim toLowerCase JSON_stringify
                      JSON_stringify_favourite net widget geo id st))
    = Some (withFavourite id u) /\
  getItem "currentUser"
    (localStorage (snd (setFavoriteRestaurant trim toLowerCase JSON_stringify
                          JSON_stringify_favourite net widget geo id st)))
    = Some (JSON_stringify (withFavourite id u)) /\
  alerts (snd (setFavoriteRestaurant trim toLowerCase JSON_stringify
                 JSON_stringify_favourite net widget geo id st)) = alerts st ++ [text] /\
  exists r others,
    renderedOrder (snd (setFavoriteRestaurant trim toLowerCase JSON_stringify
                          JSON_stringify_favourite net widget geo id st))
      = Some (r :: others) /\
    Restaurant._id r = id /\
    Permutation (r :: others) (filtered trim toLowerCase st).
Proof.
  intros Hu Ht Hv Hret Htext Hne Hin.
  assert (Hok :
    apiFetch net (API_BASE ++ "/users")
      (Options.mk (Some "PUT") [] (Some (TextBody (JSON_stringify_favourite id)))) st
    = (Returns data, st)).
  { destruct (apiFetch_cases net (API_BASE ++ "/users")
                (Options.mk (Some "PUT") [] (Some (TextBody (JSON_stringify_favourite id))))
                st) as [(e & H) | (d & H)]; rewrite H in Hret |- *; simpl in Hret;
      [discriminate | injection Hret as ->; reflexivity]. }
  remember (with_localStorage
              (obj_set "currentUser" (JSON_stringify (withFavourite id u))
                 (localStorage (with_currentUser (Some (withFavourite id u)) st)))
              (with_currentUser (Some (withFavourite id u)) st)) as sA eqn:EsA.
  assert (HelA : el sA = el st) by (subst sA; reflexivity).
  assert (HuA : currentUser sA = Some (withFavourite id u)) by (subst sA; reflexivity).
  assert (HlA : getItem "currentUser" (localStorage sA)
                = Some (JSON_stringify (withFavourite id u))).
  { subst sA. simpl. apply getItem_obj_set_same. }
  assert (HaA : alerts sA = alerts st) by (subst sA; reflexivity).
  assert (HsA : selectedLang sA = selectedLang st) by (subst sA; reflexivity).
  assert (HfA : filtered trim toLowerCase sA = filtered trim toLowerCase st)
    by (subst sA; reflexivity).
  assert (HvA : El.restaurantList (el sA) = Some v) by (rewrite HelA; exact Hv).
  pose proof (renderRestaurants_order geo (filtered trim toLowerCase st) sA v HvA) as Hord.
  destruct (renderRestaurants_frame geo (filtered trim toLowerCase st) sA)
    as (_ & Hu1 & _ & Hl1 & Ha1 & Hs1 & _).
  remember (snd (renderRestaurants geo (filtered trim toLowerCase st) sA)) as s1 eqn:Es1.
  destruct (renderMap_frame widget geo s1) as (_ & He2 & Hu2 & _ & Hl2 & Ha2 & Hs2 & _).
  remember (snd (renderMap widget geo s1)) as s2 eqn:Es2.
  assert (E :
    setFavoriteRestaurant trim toLowerCase JSON_stringify JSON_stringify_favourite
      net widget geo id st = (Returns tt, with_alert text s2)).
  { rewrite (setFavourite_request id st u Hu Ht).
    unfold try_catch. unfold bind at 1. rewrite Hok. cbv beta iota.
    unfold bind at 1, get at 1. cbv beta iota. rewrite Hu.
    unfold bind at 1, modify at 1. cbv beta iota.
    unfold bind at 1, setItem at 1, modify at 1. cbv beta iota.
    rewrite <- EsA.
    unfold bind at 1. rewrite filterAndRender_state. cbv beta iota.
    rewrite HfA, <- Es1, <- Es2.
    unfold translate, bind, get, alert, modify. cbv beta iota.
    rewrite Hs2, Hs1, HsA, Htext. reflexivity. }
  rewrite E. cbn [fst snd].
  split; [reflexivity |].
  split; [simpl; rewrite Hu2, Hu1; exact HuA |].
  split; [simpl; rewrite Hl2, Hl1; exact HlA |].
  split; [simpl; rewrite Ha2, Ha1, HaA; reflexivity |].
  assert (Hro : renderedOrder (with_alert text s2) = renderedOrder s1).
  { unfold renderedOrder. simpl. rewrite He2. reflexivity. }
  rewrite Hro, Hord, HuA.
  assert (Hfav : favouriteOf (Some (withFavourite id u)) = Some id).
  { apply favouriteOf_set; [reflexivity | exact Hne]. }
  destruct (sortedList_favourite_head (Some (withFavourite id u)) (locationSeen geo sA)
              id (filtered trim toLowerCase st) Hfav Hin) as (r & others & Hsorted & Hid).
  exists r, others. split; [rewrite Hsorted; reflexivity |]. split; [exact Hid |].
  rewrite <- Hsorted. apply sortedList_perm.
Qed.

End SetFavouriteFacts.

(** ** Directory refresh, further *)

Lemma populateFilters_frame st :
  fst (populateFilters st) = Returns tt /\
  restaurants (snd (populateFilters st)) = restaurants st /\
  currentUser (snd (populateFilters st)) = currentUser st /\
  alerts (snd (populateFilters st)) = alerts st /\
  El.restaurantList (el (snd (populateFilters st))) = El.restaurantList (el st).
Proof.
  unfold populateFilters, bind, get. simpl.
  destruct (El.cityFilter (el st)), (El.providerFilter (el st)),
    (El.favoriteRestaurant (el st)); repeat split; reflexivity.
Qed.

(** X29. When the request of a refresh succeeds and the page has a list
    container, the refresh returns without a notification, the directory
    is the fetched list, and the list view shows one card per fetched
    restaurant, the cards being a rearrangement of the fetched list (the
    no-results placeholder when it is empty). *)
Theorem refresh_shows_fetched net widget geo st v res data :
  El.restaurantList (el st) = Some v ->
  net (requestOf st (API_BASE ++ "/restaurants") Options.empty) = FetchResponds res ->
  Response.ok res = true ->
  Response.json res = inr data ->
  fst (fetchRestaurants net widget geo st) = Returns tt /\
  restaurants (snd (fetchRestaurants net widget geo st)) = Body.payload data /\
  alerts (snd (fetchRestaurants net widget geo st)) = alerts st /\
  exists order,
    renderedOrder (snd (fetchRestaurants net widget geo st)) = Some order /\
    Permutation order (Body.payload data).
Proof.
  intros Hv Hnet Hok Hjson.
  remember (with_el (set_restaurantList Loading (el st)) st) as s0 eqn:Es0.
  assert (H0 : apiFetch net (API_BASE ++ "/restaurants") Options.empty s0
               = (Returns data, s0)).
  { apply (apiFetch_ok net (API_BASE ++ "/restaurants") Options.empty s0 res data);
      [subst s0; exact Hnet | exact Hjson | exact Hok]. }
  remember (with_restaurants (Body.payload data) s0) as s1 eqn:Es1.
  destruct (populateFilters_frame s1) as (Hp & Hpr & _ & Hpa & Hpl).
  remember (snd (populateFilters s1)) as s2 eqn:Es2.
  assert (Hv2 : El.restaurantList (el s2) = Some Loading).
  { rewrite Hpl. subst s1 s0. simpl. rewrite Hv. reflexivity. }
  pose proof (renderRestaurants_order geo (restaurants s2) s2 Loading Hv2) as Hord.
  destruct (renderRestaurants_frame geo (restaurants s2) s2)
    as (Hr & _ & _ & _ & Hra & _ & Hrr).
  remember (snd (renderRestaurants geo (restaurants s2) s2)) as s3 eqn:Es3.
  destruct (renderMap_frame widget geo s3) as (Hm & Hme & _ & _ & _ & Hma & _ & Hmr).
  remember (snd (renderMap widget geo s3)) as s4 eqn:Es4.
  assert (E : fetchRestaurants net widget geo st = (Returns tt, s4)).
  { unfold fetchRestaurants, bind, try_catch, modify. cbv beta iota.
    rewrite <- Es0, H0. cbv beta iota. rewrite <- Es1.
    destruct (populateFilters s1) as [r2 s2'] eqn:E2. simpl in Hp, Es2. subst r2 s2'.
    unfold get. cbv beta iota.
    destruct (renderRestaurants geo (restaurants s2) s2) as [r3 s3'] eqn:E3.
    simpl in Hr, Es3. subst r3 s3'.
    destruct (renderMap widget geo s3) as [r4 s4'] eqn:E4.
    simpl in Hm, Es4. subst r4 s4'. reflexivity. }
  rewrite E. cbn [fst snd].
  split; [reflexivity |].
  split; [rewrite Hmr, Hrr, Hpr; subst s1; reflexivity |].
  split; [rewrite Hma, Hra, Hpa; subst s1 s0; reflexivity |].
  exists (sortedList (currentUser s2) (locationSeen geo s2) (restaurants s2)).
  split.
  - unfold renderedOrder. rewrite Hme. exact Hord.
  - rewrite Hpr. subst s1. simpl. apply sortedList_perm.
Qed.

Lemma refresh_shows_fetched_witness :
  fst (fetchRestaurants (answering directory) MapReady GeoFails startup) = Returns tt /\
  restaurants (snd (fetchRestaurants (answering directory) MapReady GeoFails startup))
    = [far; unlocated; near] /\
  alerts (snd (fetchRestaurants (answering directory) MapReady GeoFails startup))
    = alerts startup /\
  exists order,
    renderedOrder (snd (fetchRestaurants (answering directory) MapReady GeoFails startup))
      = Some order /\
    Permutation order [far; unlocated; near].
Proof.
  apply (refresh_shows_fetched (answering directory) MapReady GeoFails startup Loading
           directory (Body.mk None [far; unlocated; near])).
  - reflexivity.
  - reflexivity.
  - reflexivity.
  - reflexivity.
Defined.

(** ** Rendering again *)

Section SortedStays.
Context {A : Type}.
Variable positive : A -> A -> bool.
Variable key : A -> R.
Variable P : A -> Prop.
Hypothesis positive_key :
  forall x y, P x -> P y -> (positive x y = true <-> (key y < key x)%R).


End SortedStays.



(** ** The properties at sample inputs *)

Lemma unparsable_body_fails_witness :
  fst (apiFetch (answering garbled) API_BASE Options.empty startup)
    = Throws (JsError.mk "SyntaxError" "Invalid JSON") /\
  alerts (snd (apiFetch (answering garbled) API_BASE Options.empty startup))
    = alerts startup ++ [notification (JsError.mk "SyntaxError" "Invalid JSON")].
Proof.
  apply (unparsable_body_fails (answering garbled) API_BASE Options.empty startup garbled
           (JsError.mk "SyntaxError" "Invalid JSON")).
  - reflexivity.
  - reflexivity.
Defined.

Lemma idle_controls_filter_nothing_witness :
  filtered trimBlanks (fun s => s) idle = restaurants idle.
Proof.
  apply (idle_controls_filter_nothing trimBlanks (fun s => s) idle).
  - intros s H. injection H as <-. reflexivity.
  - intros s H. injection H as <-. reflexivity.
  - intros v H. injection H as <-. reflexivity.
Defined.

Lemma one_card_per_restaurant_witness :
  ([far; unlocated; near] = [] ->
   El.restaurantList
     (el (snd (renderRestaurants GeoFails [far; unlocated; near] startup)))
     = Some NoResults) /\
  ([far; unlocated; near] <> [] ->
   exists cs,
     El.restaurantList
       (el (snd (renderRestaurants GeoFails [far; unlocated; near] startup)))
       = Some (Cards cs) /\
     Permutation (map Card.restaurant cs) [far; unlocated; near]) /\
  (favouriteOf (currentUser startup) = None -> locationSeen GeoFails startup = None ->
   renderedOrder (snd (renderRestaurants GeoFails [far; unlocated; near] startup))
     = Some [far; unlocated; near]).
Proof.
  apply (one_card_per_restaurant GeoFails [far; unlocated; near] startup Loading).
  reflexivity.
Defined.


Lemma filter_options_sorted_unique_witness :
  exists c' p' f',
    El.cityFilter (el (snd (populateFilters idle))) = Some c' /\
    El.providerFilter (el (snd (populateFilters idle))) = Some p' /\
    El.favoriteRestaurant (el (snd (populateFilters idle))) = Some f' /\
    map fst (Select.others c') = map snd (Select.others c') /\
    StronglySorted (fun a b => String.compare a b = Lt) (map snd (Select.others c')) /\
    (forall x, In x (map snd (Select.others c')) <->
               In x (map Restaurant.city (restaurants idle))) /\
    map fst (Select.others p') = map snd (Select.others p') /\
    StronglySorted (fun a b => String.compare a b = Lt) (map snd (Select.others p')) /\
    (forall x, In x (map snd (Select.others p')) <->
               In x (map Restaurant.company (restaurants idle))) /\
    Select.others f' =
      map (fun r => (Restaurant.name r, Restaurant._id r)) (restaurants idle).
Proof.
  apply (filter_options_sorted_unique idle
           (Select.mk ("Kaikki kaupungit", "") [("Helsinki", "Helsinki")] "")
           (Select.mk ("Kaikki palveluntarjoajat", "") [("X", "X")] "")
           (Select.mk ("Valitse suosikkiravintola", "") [] "")).
  - reflexivity.
  - reflexivity.
  - reflexivity.
Defined.

Lemma favourite_needs_session_witness :
  setFavoriteRestaurant trimBlanks (fun s => s) studentPrinter favouritePrinter
    (answering accepted) MapReady GeoFails "r3" idle = (Returns tt, idle).
Proof.
  apply (favourite_needs_session trimBlanks (fun s => s) studentPrinter favouritePrinter
           (answering accepted) MapReady GeoFails "r3" idle).
  left. reflexivity.
Defined.

Lemma refused_favourite_changes_nothing_witness :
  fst (setFavoriteRestaurant trimBlanks (fun s => s) studentPrinter favouritePrinter
         (D := unit) (unreachable failedToFetch) MapReady GeoFails "r3" signedIn)
    = Returns tt /\
  currentUser
    (snd (setFavoriteRestaurant trimBlanks (fun s => s) studentPrinter favouritePrinter
            (D := unit) (unreachable failedToFetch) MapReady GeoFails "r3" signedIn))
    = Some student /\
  localStorage
    (snd (setFavoriteRestaurant trimBlanks (fun s => s) studentPrinter favouritePrinter
            (D := unit) (unreachable failedToFetch) MapReady GeoFails "r3" signedIn))
    = localStorage signedIn /\
  el (snd (setFavoriteRestaurant trimBlanks (fun s => s) studentPrinter favouritePrinter
             (D := unit) (unreachable failedToFetch) MapReady GeoFails "r3" signedIn))
    = el signedIn /\
  alerts
    (snd (setFavoriteRestaurant trimBlanks (fun s => s) studentPrinter favouritePrinter
            (D := unit) (unreachable failedToFetch) MapReady GeoFails "r3" signedIn))
    = alerts signedIn ++
      [notification failedToFetch; "Suosikin asettaminen epäonnistui"].
Proof.
  apply (refused_favourite_changes_nothing trimBlanks (fun s => s) studentPrinter
           favouritePrinter (D := unit) (unreachable failedToFetch) MapReady GeoFails
           "r3" signedIn student failedToFetch "Suosikin asettaminen epäonnistui").
  - reflexivity.
  - reflexivity.
  - reflexivity.
  - reflexivity.
Defined.

Lemma accepted_favourite_comes_first_witness :
  fst (setFavoriteRestaurant trimBlanks (fun s => s) studentPrinter favouritePrinter
         (answering accepted) MapReady GeoFails "r3" signedIn) = Returns tt /\
  currentUser
    (snd (setFavoriteRestaurant trimBlanks (fun s => s) studentPrinter favouritePrinter
            (answering accepted) MapReady GeoFails "r3" signedIn))
    = Some (withFavourite "r3" student) /\
  getItem "currentUser"
    (localStorage
       (snd (setFavoriteRestaurant trimBlanks (fun s => s) studentPrinter favouritePrinter
               (answering accepted) MapReady GeoFails "r3" signedIn)))
    = Some (studentPrinter (withFavourite "r3" student)) /\
  alerts
    (snd (setFavoriteRestaurant trimBlanks (fun s => s) studentPrinter favouritePrinter
            (answering accepted) MapReady GeoFails "r3" signedIn))
    = alerts signedIn ++ ["Suosikkiravintola asetettu!"] /\
  exists r others,
    renderedOrder
      (snd (setFavoriteRestaurant trimBlanks (fun s => s) studentPrinter favouritePrinter
              (answering accepted) MapReady GeoFails "r3" signedIn))
      = Some (r :: others) /\
    Restaurant._id r = "r3" /\
    Permutation (r :: others) (filtered trimBlanks (fun s => s) signedIn).
Proof.
  apply (accepted_favourite_comes_first trimBlanks (fun s => s) studentPrinter
           favouritePrinter (answering accepted) MapReady GeoFails
           "r3" signedIn student Loading (Body.mk None tt) "Suosikkiravintola asetettu!").
  - reflexivity.
  - reflexivity.
  - reflexivity.
  - reflexivity.
  - reflexivity.
  - discriminate.
  - simpl. auto.
Defined.
